(** * UniResults: grades, CGPA advice, dashboard rollups and SMS dispatch

    A shallow embedding of the logic of the student-result application:

    - [Migration]      the Postgres schema and [calculate_grade]
                       (supabase/migrations/20250716181039-....sql);
    - [ResultEntry]    [calculateGradeInfo] and [handleAddResult]
                       (src/components/ResultEntry.tsx);
    - [CGPAAnalyzer]   [getClassification], [getRecommendations] and the
                       analysis built by [analyzeCGPA]
                       (src/components/CGPAAnalyzer.tsx);
    - [Dashboard]      the rollups of [fetchDashboardStats]
                       (src/components/Dashboard.tsx);
    - [SMSNotifications] [sendSingleSMS] and [sendBulkSMS]
                       (the second component of ResultEntry.tsx);
    - [StudentManagement] [handleAddStudent];
    - [App]            the user actions of all tabs as steps on one world.

    Numbers.  A Postgres DECIMAL is an exact decimal, modelled by the
    rational it denotes ([Q]).  A JavaScript number is an IEEE-754 binary64:
    - in [CGPAAnalyzer] it is Rocq's primitive [float], because the code
      compares against 3.7, 3.3, 2.7, 0.2 (none of them a binary64 value)
      and subtracts two averages, so rounding is observable;
    - in [ResultEntry] the score only meets [>=] against the integers
      70, 60, 50, 45, 40, 0 and 100, which binary64 holds exactly, so the
      outcome depends on the rational value of the score alone and the
      score is a [Q], the type it shares with the database function;
    - in [Dashboard] the average is a binary64 sum and quotient of the
      numbers the DECIMAL(3,2) column values arrive as, rounded by
      [toFixed(2)]; it is a [float] as well, and the two-decimal values
      of the database reach it through [decimal2].

    Text.  A [string] is the UTF-8 encoding of the text; the length a
    VARCHAR(n) column limits is the number of characters
    ([utf8_length]), not of bytes. *)

From stdpp Require Import gmap strings list.
From Stdlib Require Import ZArith QArith Qround Lqa Floats DecimalString Lia.

#[local] Set Warnings "-inexact-float".

(* ===================================================================== *)
(** * Numbers *)
(* ===================================================================== *)

Module Numbers.

(** [x >= y] on exact numbers. *)
Definition Qgeb (x y : Q) : bool := Qle_bool y x.

(** [x < y] and [x > y] on exact numbers. *)
Definition Qltb (x y : Q) : bool := negb (Qle_bool y x).
Definition Qgtb (x y : Q) : bool := negb (Qle_bool x y).

(** Rounding to two decimals, ties away from zero: what a NUMERIC(p,2)
    column does to a value stored in it. *)
Definition round2 (x : Q) : Q :=
  if Qle_bool 0 x
  then Qfloor (x * 100 + (1 # 2)) # 100
  else (- Qfloor (- x * 100 + (1 # 2))) # 100.

(** The JavaScript number of an array length (below 2^32, so exact). *)
Definition number_of_nat (n : nat) : float :=
  PrimFloat.of_uint63 (Uint63.of_Z (Z.of_nat n)).

(** The JavaScript number a two-decimal database value arrives as, from
    its count of hundredths: PostgREST prints a NUMERIC as a JSON number
    and [JSON.parse] reads the binary64 nearest to it.  The count (below
    2^53 in absolute value) and 100 are binary64 values and [/] rounds to
    nearest, so the quotient is that binary64. *)
Definition decimal2 (hundredths : Z) : float :=
  if (hundredths <? 0)%Z
  then PrimFloat.opp
         (PrimFloat.div (PrimFloat.of_uint63 (Uint63.of_Z (- hundredths))) 100%float)
  else PrimFloat.div (PrimFloat.of_uint63 (Uint63.of_Z hundredths)) 100%float.

(** [parseFloat(x.toFixed(2))].  [toFixed(2)] prints "NaN" and the
    infinities as such, and a number of magnitude 1e21 or more by
    [ToString]; all of these read back as [x].  Otherwise it takes the
    sign off, lets n be the integer for which n / 100 - x is as close to
    zero as possible (the larger n if there are two), that is
    floor (100 x + 1/2) on the exact value of x, and prints n with two
    decimals behind the sign; [parseFloat] reads the binary64 nearest to
    that decimal.  Below 2^46 the integer n is below 2^53, so it and 100
    are binary64 values and n / 100, rounded to nearest by [/], is the
    number read back.  From 2^46 on, neighbouring binary64 values are
    2^-6 apart or more and n / 100 lies within 0.005 < 2^-7 of x, so the
    number read back is x.  Both zeros print as "0.00" (-0 is not < 0);
    a negative number that rounds to zero prints as "-0.00" and reads
    back as -0. *)
Definition toFixed2 (x : float) : float :=
  match Prim2SF x with
  | S754_nan => x
  | S754_infinity _ => x
  | S754_zero _ => 0%float
  | S754_finite s m e =>
      if PrimFloat.leb 0x1p46%float (PrimFloat.abs x) then x
      else
        let n := Qfloor ((Z.pos m # 1) * Qpower 2 e * 100 + (1 # 2)) in
        let r := PrimFloat.div (PrimFloat.of_uint63 (Uint63.of_Z n)) 100%float in
        if s then PrimFloat.opp r else r
  end.

(** The rational a finite binary64 denotes. *)
Definition exact_value (x : float) : option Q :=
  match Prim2SF x with
  | S754_zero _ => Some 0
  | S754_finite s m e =>
      Some ((if s then -1 else 1) * (Z.pos m # 1) * Qpower 2 e)
  | _ => None
  end.

(** The number of characters of a text: the bytes of its UTF-8 encoding
    that are not continuation bytes (10xxxxxx, 128 to 191). *)
Fixpoint utf8_length (s : string) : nat :=
  match s with
  | EmptyString => 0
  | String c rest =>
      let b := Ascii.nat_of_ascii c in
      if (Nat.leb 128 b && Nat.ltb b 192)%bool
      then utf8_length rest
      else S (utf8_length rest)
  end.

(** Template-literal rendering of a counter. *)
Definition string_of_nat (n : nat) : string :=
  NilZero.string_of_uint (Nat.to_uint n).

End Numbers.

(* ===================================================================== *)
(** * The database: schema and grade function of the migration *)
(* ===================================================================== *)

Module Migration.
Import Numbers.

(** A Postgres / PostgREST error as the client sees it. *)
Record Error := { code : string; message : string }.

Module Students.
Record row := {
  id : string;               (* UUID PRIMARY KEY *)
  student_id : string;       (* VARCHAR(50) NOT NULL UNIQUE *)
  first_name : string;
  last_name : string;
  email : string;
  phone_number : string;
  program : string;
  year_of_study : Z;         (* INTEGER NOT NULL CHECK (year_of_study > 0) *)
}.
End Students.

Module Courses.
Record row := {
  id : string;
  course_code : string;      (* VARCHAR(20) NOT NULL UNIQUE *)
  course_name : string;
  credit_units : Z;          (* CHECK (credit_units > 0) *)
}.
End Courses.

Module Semesters.
Record row := {
  id : string;
  name : string;
  year : Z;
  is_current : bool;         (* DEFAULT false *)
}.
End Semesters.

Module Results.
Record row := {
  id : string;
  student_id : string;       (* REFERENCES students(id) *)
  course_id : string;        (* REFERENCES courses(id) *)
  semester_id : string;      (* REFERENCES semesters(id) *)
  score : Q;                 (* DECIMAL(5,2), CHECK 0 <= score <= 100 *)
  grade : string;            (* VARCHAR(2) *)
  grade_point : Q;           (* DECIMAL(3,2), CHECK 0 <= grade_point <= 4 *)
  sms_sent : bool;           (* BOOLEAN DEFAULT false *)
}.

(** [UPDATE results SET sms_sent = true] on one row. *)
Definition set_sms_sent (r : row) : row :=
  {| id := id r; student_id := student_id r; course_id := course_id r;
     semester_id := semester_id r; score := score r; grade := grade r;
     grade_point := grade_point r; sms_sent := true |}.
End Results.

Module CgpaRecords.
Record row := {
  id : string;
  student_id : string;
  semester_id : string;
  semester_gpa : Q;          (* DECIMAL(3,2), CHECK 0 <= . <= 4 *)
  cumulative_gpa : Q;        (* DECIMAL(3,2), CHECK 0 <= . <= 4 *)
  total_credit_units : Z;
}.
End CgpaRecords.

(** The five tables, each in insertion order (oldest row first), so that
    [ORDER BY created_at DESC] is the reversed list.  The [created_at] and
    [updated_at] columns themselves are not kept; nothing reads them but
    that ordering. *)
Record Db := {
  students : list Students.row;
  courses : list Courses.row;
  semesters : list Semesters.row;
  results : list Results.row;
  cgpa_records : list CgpaRecords.row;
}.

Definition with_results (db : Db) (rs : list Results.row) : Db :=
  {| students := students db; courses := courses db;
     semesters := semesters db; results := rs;
     cgpa_records := cgpa_records db |}.

Definition with_students (db : Db) (ss : list Students.row) : Db :=
  {| students := ss; courses := courses db;
     semesters := semesters db; results := results db;
     cgpa_records := cgpa_records db |}.

(** [public.calculate_grade(score DECIMAL)]: two CASE expressions over
    the same thresholds, returned as one row (grade, grade_point). *)
Definition calculate_grade (score : Q) : string * Q :=
  ( (if Qgeb score 70 then "A"
     else if Qgeb score 60 then "B"
     else if Qgeb score 50 then "C"
     else if Qgeb score 45 then "D"
     else if Qgeb score 40 then "E"
     else "F")%string,
    (if Qgeb score 70 then 4.0
     else if Qgeb score 60 then 3.0
     else if Qgeb score 50 then 2.0
     else if Qgeb score 45 then 1.0
     else if Qgeb score 40 then 0.0
     else 0.0)%Q ).

(** The values a client supplies to [INSERT INTO results]; [id] is what
    [gen_random_uuid()] draws and [sms_sent] takes its column default. *)
Record results_insert := {
  ins_student_id : string;
  ins_course_id : string;
  ins_semester_id : string;
  ins_score : Q;
  ins_grade : string;
  ins_grade_point : Q;
}.

Definition has_id {R} (id_of : R -> string) (i : string) (t : list R) : bool :=
  existsb (fun r => String.eqb (id_of r) i) t.

Definition same_triple (v : results_insert) (r : Results.row) : bool :=
  String.eqb (Results.student_id r) (ins_student_id v)
  && String.eqb (Results.course_id r) (ins_course_id v)
  && String.eqb (Results.semester_id r) (ins_semester_id v).

Definition pg_error (sqlstate msg : string) : Error :=
  {| code := sqlstate; message := msg |}.

(** [INSERT INTO public.results (...) VALUES (...)]: the column types
    round the decimals to scale 2, then the constraints of the table are
    checked; the new row is appended with [sms_sent = false]. *)
Definition insert_result (new_id : string) (v : results_insert) (db : Db)
  : Error + Db :=
  let score := round2 (ins_score v) in
  let grade_point := round2 (ins_grade_point v) in
  if Nat.ltb 2 (utf8_length (ins_grade v)) then
    inl (pg_error "22001" "value too long for type character varying(2)")
  else if negb (Qle_bool 0 score && Qle_bool score 100) then
    inl (pg_error "23514" "new row for relation results violates check constraint results_score_check")
  else if negb (Qle_bool 0 grade_point && Qle_bool grade_point 4) then
    inl (pg_error "23514" "new row for relation results violates check constraint results_grade_point_check")
  else if has_id Results.id new_id (results db) then
    inl (pg_error "23505" "duplicate key value violates unique constraint results_pkey")
  else if existsb (same_triple v) (results db) then
    inl (pg_error "23505" "duplicate key value violates unique constraint results_student_id_course_id_semester_id_key")
  else if negb (has_id Students.id (ins_student_id v) (students db)) then
    inl (pg_error "23503" "insert or update on table results violates foreign key constraint results_student_id_fkey")
  else if negb (has_id Courses.id (ins_course_id v) (courses db)) then
    inl (pg_error "23503" "insert or update on table results violates foreign key constraint results_course_id_fkey")
  else if negb (has_id Semesters.id (ins_semester_id v) (semesters db)) then
    inl (pg_error "23503" "insert or update on table results violates foreign key constraint results_semester_id_fkey")
  else
    inr (with_results db
           (results db ++
            [ {| Results.id := new_id;
                 Results.student_id := ins_student_id v;
                 Results.course_id := ins_course_id v;
                 Results.semester_id := ins_semester_id v;
                 Results.score := score;
                 Results.grade := ins_grade v;
                 Results.grade_point := grade_point;
                 Results.sms_sent := false |} ])).

(** The values a client supplies to [INSERT INTO students], as the JSON
    body carries them.  The year is a JavaScript number that came out of
    [parseInt]: an integer, or NaN, which [JSON.stringify] writes as
    null ([None]). *)
Record students_insert := {
  new_student_id : string;
  new_first_name : string;
  new_last_name : string;
  new_email : string;
  new_phone_number : string;
  new_program : string;
  new_year_of_study : option Z;
}.

(** [INSERT INTO public.students (...) VALUES (...)].  The values are
    first read at the column types: the student id must fit
    VARCHAR(50), counted in characters, and the year must be an INTEGER
    (a number from 1e21 on is written in exponent form, which is no
    integer literal; any other integer outside the 32-bit range is out
    of range).  Then NOT NULL, the CHECK and the two unique indexes are
    enforced. *)
Definition insert_student (new_id : string) (v : students_insert) (db : Db)
  : Error + Db :=
  if Nat.ltb 50 (utf8_length (new_student_id v)) then
    inl (pg_error "22001" "value too long for type character varying(50)")
  else
    match new_year_of_study v with
    | None =>
        inl (pg_error "23502" "null value in column year_of_study of relation students violates not-null constraint")
    | Some year =>
        if (10 ^ 21 <=? Z.abs year)%Z then
          inl (pg_error "22P02" "invalid input syntax for type integer")
        else if negb ((-2147483648 <=? year)%Z && (year <=? 2147483647)%Z) then
          inl (pg_error "22003" "value is out of range for type integer")
        else if negb (0 <? year)%Z then
          inl (pg_error "23514" "new row for relation students violates check constraint students_year_of_study_check")
        else if has_id Students.id new_id (students db) then
          inl (pg_error "23505" "duplicate key value violates unique constraint students_pkey")
        else if has_id Students.student_id (new_student_id v) (students db) then
          inl (pg_error "23505" "duplicate key value violates unique constraint students_student_id_key")
        else
          inr (with_students db
                 (students db ++
                  [ {| Students.id := new_id;
                       Students.student_id := new_student_id v;
                       Students.first_name := new_first_name v;
                       Students.last_name := new_last_name v;
                       Students.email := new_email v;
                       Students.phone_number := new_phone_number v;
                       Students.program := new_program v;
                       Students.year_of_study := year |} ]))
    end.

(** [UPDATE results SET sms_sent = true WHERE id = i]: every matching
    row is rewritten; matching no row is not an error. *)
Definition update_sms_sent (i : string) (db : Db) : Db :=
  with_results db
    (map (fun r => if String.eqb (Results.id r) i
                   then Results.set_sms_sent r else r)
         (results db)).

End Migration.

(* ===================================================================== *)
(** * The client runtime: toasts, remote faults, try / catch / finally *)
(* ===================================================================== *)

Module Client.
Import Migration.

(** [toast({ title, description, variant })]. *)
Record Toast := {
  title : string;
  description : string;
  variant : option string;
}.

(** [error.message || fallback]: the empty string is falsy. *)
Definition message_or (error : Error) (fallback : string) : string :=
  if String.eqb (message error) "" then fallback else message error.

Definition destructive (descr : string) : Toast :=
  {| title := "Error"; description := descr; variant := Some "destructive"%string |}.

(** What a handler can observe and change: the remote database, the
    toasts shown so far (oldest first) and the React state [ui] of the
    component it belongs to. *)
Record World {S : Type} := mkWorld {
  db : Db;
  toasts : list Toast;
  ui : S;
}.
Arguments World : clear implicits.
Arguments mkWorld {S} _ _ _.

(** The answers of the persistence boundary that the code cannot
    control: the error (if any) returned for a write that targets a given
    key, the error (if any) returned for a read, and the UUID that
    [gen_random_uuid()] draws for an inserted row. *)
Record Remote := {
  write_error : string -> option Error;
  select_error : option Error;
  gen_random_uuid : string;
}.

(** How a block of statements ends. *)
Inductive completion (A : Type) :=
| Normal (a : A)
| Throw (e : Error).
Arguments Normal {A} a.
Arguments Throw {A} e.

Section Monad.
Context {S : Type}.

Definition M (A : Type) : Type := World S -> completion A * World S.

Definition ret {A} (a : A) : M A := fun w => (Normal a, w).

Definition bind {A B} (m : M A) (k : A -> M B) : M B :=
  fun w =>
    match m w with
    | (Normal a, w') => k a w'
    | (Throw e, w') => (Throw e, w')
    end.

Definition throw {A} (e : Error) : M A := fun w => (Throw e, w).

(** [try { body } catch (error) { handler }]. *)
Definition try_catch {A} (body : M A) (handler : Error -> M A) : M A :=
  fun w =>
    match body w with
    | (Normal a, w') => (Normal a, w')
    | (Throw e, w') => handler e w'
    end.

(** [try { body } finally { cleanup }]. *)
Definition try_finally {A} (body : M A) (cleanup : M unit) : M A :=
  fun w =>
    match body w with
    | (c, w') =>
        match cleanup w' with
        | (Normal _, w'') => (c, w'')
        | (Throw e, w'') => (Throw e, w'')
        end
    end.

Definition get_db : M Db := fun w => (Normal (db w), w).
Definition put_db (d : Db) : M unit :=
  fun w => (Normal tt, mkWorld d (toasts w) (ui w)).
Definition get_ui : M S := fun w => (Normal (ui w), w).
Definition modify_ui (f : S -> S) : M unit :=
  fun w => (Normal tt, mkWorld (db w) (toasts w) (f (ui w))).
Definition toast (t : Toast) : M unit :=
  fun w => (Normal tt, mkWorld (db w) (toasts w ++ [t]) (ui w)).

(** [if (error) throw error]. *)
Definition throw_if (error : option Error) : M unit :=
  match error with
  | Some e => throw e
  | None => ret tt
  end.
End Monad.

Declare Scope js_scope.
Delimit Scope js_scope with js.
Notation "x <- c1 ;; c2" := (bind c1 (fun x => c2))
  (at level 100, c1 at next level, right associativity) : js_scope.
Notation "c1 ;; c2" := (bind c1 (fun _ => c2))
  (at level 100, right associativity) : js_scope.

End Client.

(* ===================================================================== *)
(** * src/components/ResultEntry.tsx: ResultEntry *)
(* ===================================================================== *)

Module ResultEntry.
Import Numbers Migration Client.
Local Open Scope js_scope.

Record GradeInfo := {
  grade : string;
  grade_point : Q;
  color : string;
}.

Definition calculateGradeInfo (score : Q) : GradeInfo :=
  if Qgeb score 70 then {| grade := "A"; grade_point := 4.0; color := "bg-success" |}
  else if Qgeb score 60 then {| grade := "B"; grade_point := 3.0; color := "bg-primary" |}
  else if Qgeb score 50 then {| grade := "C"; grade_point := 2.0; color := "bg-accent" |}
  else if Qgeb score 45 then {| grade := "D"; grade_point := 1.0; color := "bg-warning" |}
  else if Qgeb score 40 then {| grade := "E"; grade_point := 0.0; color := "bg-warning" |}
  else {| grade := "F"; grade_point := 0.0; color := "bg-destructive" |}.

(** The form; [score] is [parseFloat(formData.score)], [None] when that
    is NaN. *)
Record FormData := {
  student_id : string;
  course_id : string;
  semester_id : string;
  score : option Q;
}.

(** [supabase.from('results').insert([...])]. *)
Definition supabase_insert_result (remote : Remote) (v : results_insert)
  : M (S := unit) (option Error) :=
  match write_error remote (gen_random_uuid remote) with
  | Some e => ret (Some e)
  | None =>
      d <- get_db ;;
      match insert_result (gen_random_uuid remote) v d with
      | inl e => ret (Some e)
      | inr d' => put_db d' ;; ret None
      end
  end.

(** [handleAddResult].  The lists and the form kept in React state are
    display data and are left out: [setFormData] and [fetchData] change
    nothing that is modelled. *)
Definition handleAddResult (remote : Remote) (formData : FormData)
  : M (S := unit) unit :=
  try_catch
    (match score formData with
     | None =>
         toast (destructive "Please enter a valid score between 0 and 100")
     | Some score =>
         if Qltb score 0 || Qgtb score 100 then
           toast (destructive "Please enter a valid score between 0 and 100")
         else
           let gradeInfo := calculateGradeInfo score in
           error <- supabase_insert_result remote
                      {| ins_student_id := student_id formData;
                         ins_course_id := course_id formData;
                         ins_semester_id := semester_id formData;
                         ins_score := score;
                         ins_grade := grade gradeInfo;
                         ins_grade_point := grade_point gradeInfo |} ;;
           throw_if error ;;
           toast {| title := "Success";
                    description := "Result added successfully";
                    variant := None |}
     end)
    (fun error => toast (destructive (message_or error "Failed to add result"))).

(** [sendSMSNotification]: a stub that only shows a toast. *)
Definition sendSMSNotification (resultId : string) : M (S := unit) unit :=
  try_catch
    (toast {| title := "SMS Sent";
              description := "Result notification sent successfully";
              variant := None |})
    (fun _ => toast (destructive "Failed to send SMS notification")).

(** [getGradeColor]: the badge classes of a letter grade; ['E'] and ['F']
    share a case, anything else takes the default. *)
Definition getGradeColor (grade : string) : string :=
  if String.eqb grade "A" then "bg-success text-success-foreground"
  else if String.eqb grade "B" then "bg-primary text-primary-foreground"
  else if String.eqb grade "C" then "bg-accent text-accent-foreground"
  else if String.eqb grade "D" then "bg-warning text-warning-foreground"
  else if String.eqb grade "E" || String.eqb grade "F"
       then "bg-destructive text-destructive-foreground"
  else "bg-muted text-muted-foreground".

End ResultEntry.

(* ===================================================================== *)
(** * StudentManagement *)
(* ===================================================================== *)

Module StudentManagement.
Import Migration Client.
Local Open Scope js_scope.

(** [supabase.from('students').insert([formData])]; the database draws
    the [id]. *)
Definition supabase_insert_student (remote : Remote) (formData : students_insert)
  : M (S := unit) (option Error) :=
  match write_error remote (gen_random_uuid remote) with
  | Some e => ret (Some e)
  | None =>
      d <- get_db ;;
      match insert_student (gen_random_uuid remote) formData d with
      | inl e => ret (Some e)
      | inr d' => put_db d' ;; ret None
      end
  end.

Definition handleAddStudent (remote : Remote) (formData : students_insert)
  : M (S := unit) unit :=
  try_catch
    (error <- supabase_insert_student remote formData ;;
     throw_if error ;;
     toast {| title := "Success";
              description := "Student added successfully";
              variant := None |})
    (fun error => toast (destructive (message_or error "Failed to add student"))).

End StudentManagement.

(* ===================================================================== *)
(** * src/components/CGPAAnalyzer.tsx *)
(* ===================================================================== *)

Module CGPAAnalyzer.
Import Migration Client.
Local Open Scope float_scope.

(** [x >= y] and [x > y] on binary64 numbers (false when either is NaN). *)
Definition geb (x y : float) : bool := PrimFloat.leb y x.
Definition gtb (x y : float) : bool := PrimFloat.ltb y x.
Infix ">=?" := geb (at level 70, no associativity) : float_scope.
Infix ">?" := gtb (at level 70, no associativity) : float_scope.

Record Student := {
  id : string;
  student_id : string;
  first_name : string;
  last_name : string;
  program : string;
}.

Record SemesterRef := { name : string; year : Z }.

Record CGPARecord := {
  semester_gpa : float;
  cumulative_gpa : float;
  total_credit_units : Z;
  semesters : SemesterRef;
}.

Inductive Trend := up | down | stable.
Inductive RiskLevel := low | medium | high.

Record CGPAAnalysis := {
  student : Student;
  records : list CGPARecord;
  currentCGPA : float;
  trend : Trend;
  classification : string;
  recommendations : list string;
  riskLevel : RiskLevel;
}.

Definition getClassification (cgpa : float) : string :=
  if cgpa >=? 3.7 then "First Class Honours"
  else if cgpa >=? 3.3 then "Second Class Honours (Upper Division)"
  else if cgpa >=? 2.7 then "Second Class Honours (Lower Division)"
  else if cgpa >=? 2.0 then "Third Class Honours"
  else "Pass".

(** The object [{ riskLevel, recommendations }] that
    [getRecommendations] returns. *)
Record Advice := {
  adv_riskLevel : RiskLevel;
  adv_recommendations : list string;
}.

(** [getRecommendations]: the base tier is chosen by the first [if]
    chain, each [push] appending at the end; then the trend overlay.
    Under [records.length > 1] both indexed reads are in range; the
    last branch of the [match] is the out-of-range read, which cannot
    be reached. *)
Definition getRecommendations (cgpa : float) (records : list CGPARecord) : Advice :=
  let '(riskLevel, recommendations) :=
    if cgpa <? 2.0 then
      (high,
       [ "Seek academic counseling immediately";
         "Consider reducing course load to focus on improving grades";
         "Utilize tutoring services and study groups";
         "Meet with academic advisor to discuss academic standing" ]%string)
    else if cgpa <? 2.7 then
      (medium,
       [ "Improve study habits and time management";
         "Seek help from professors during office hours";
         "Consider forming study groups with classmates";
         "Focus on courses with higher credit values" ]%string)
    else if cgpa <? 3.3 then
      (low,
       [ "Maintain consistent study schedule";
         "Challenge yourself with advanced courses";
         "Consider research opportunities or internships" ]%string)
    else
      (low,
       [ "Excellent performance! Keep up the good work";
         "Consider pursuing honors programs or research";
         "Explore leadership opportunities";
         "Prepare for graduate school applications if interested" ]%string)
  in
  let recommendations :=
    if (1 <? length records)%nat then
      match records !! (length records - 1)%nat,
            records !! (length records - 2)%nat with
      | Some latest, Some previous =>
          let trend := cumulative_gpa latest - cumulative_gpa previous in
          if trend <? -0.2 then
            recommendations ++ [ "Address declining performance - identify problem areas"%string ]
          else if trend >? 0.2 then
            recommendations ++ [ "Great improvement! Continue with current strategies"%string ]
          else recommendations
      | _, _ => recommendations
      end
    else recommendations
  in
  {| adv_riskLevel := riskLevel; adv_recommendations := recommendations |}.

(** [records.slice(-2)]. *)
Definition slice_last2 {A} (l : list A) : list A :=
  drop (length l - 2) l.

(** The trend computed inside [analyzeCGPA]. *)
Definition determineTrend (records : list CGPARecord) : Trend :=
  if (1 <? length records)%nat then
    let lastTwo := slice_last2 records in
    match lastTwo !! 1%nat, lastTwo !! 0%nat with
    | Some l1, Some l0 =>
        if cumulative_gpa l1 >? cumulative_gpa l0 then up
        else if cumulative_gpa l1 <? cumulative_gpa l0 then down
        else stable
    | _, _ => stable
    end
  else stable.

(** [analyzeCGPA] after its two queries have answered: [studentRes] is
    the answer of [.single()] on students, [cgpaRes] the answer for
    cgpa_records, whose data may be null.  An error of either query is
    thrown and ends in the destructive toast; otherwise the analysis
    that [setAnalysis] stores is returned. *)
Definition analyzeCGPA (studentRes : Error + Student)
    (cgpaRes : Error + option (list CGPARecord)) : Toast + CGPAAnalysis :=
  match studentRes with
  | inl studentError =>
      inl (destructive (message_or studentError "Failed to analyze CGPA"))
  | inr studentData =>
      match cgpaRes with
      | inl cgpaError =>
          inl (destructive (message_or cgpaError "Failed to analyze CGPA"))
      | inr cgpaData =>
          let records := default [] cgpaData in
          let currentCGPA :=
            if (0 <? length records)%nat then
              match records !! (length records - 1)%nat with
              | Some r => cumulative_gpa r
              | None => 0
              end
            else 0 in
          let trend := determineTrend records in
          let classification := getClassification currentCGPA in
          let advice := getRecommendations currentCGPA records in
          inr {| student := studentData;
                 records := records;
                 currentCGPA := currentCGPA;
                 trend := trend;
                 classification := classification;
                 recommendations := adv_recommendations advice;
                 riskLevel := adv_riskLevel advice |}
      end
  end.

End CGPAAnalyzer.

(* ===================================================================== *)
(** * src/components/Dashboard.tsx *)
(* ===================================================================== *)

Module Dashboard.
Import Numbers Migration.

Record GradeRow := { grade : string }.              (* select('grade') *)
Record CgpaRow := { cumulative_gpa : float }.       (* select('cumulative_gpa') *)

(** What the six queries of [fetchDashboardStats] answer; a count or a
    data array is null ([None]) when its query failed. *)
Record Responses := {
  studentsCount : option nat;
  coursesCount : option nat;
  smsCount : option nat;
  recentResultsData : option (list Results.row);
  gradeData : option (list GradeRow);
  cgpaData : option (list CgpaRow);
}.

Record DashboardStats := {
  totalStudents : nat;
  totalCourses : nat;
  averageCGPA : float;
  smsSent : nat;
  recentResults : list Results.row;
  gradeDistribution : gmap string nat;
}.

(** [gradeData?.reduce((acc, result) => { acc[result.grade] =
    (acc[result.grade] || 0) + 1; return acc; }, {}) || {}].

    The accumulator is a plain object, read here as the finite map of
    its own properties.  That reading is the code's for every key that
    is not a member of [Object.prototype] ([constructor], [toString],
    [__proto__], ...): for such a member [acc[key]] finds the inherited
    value before any own property exists.  Every member name is longer
    than two characters and the grade column is VARCHAR(2), so the
    properties below carry the hypothesis that the grades fit the
    column. *)
Definition computeGradeDistribution (gradeData : option (list GradeRow))
  : gmap string nat :=
  match gradeData with
  | Some rows =>
      fold_left
        (fun acc result =>
           <[ grade result := (default 0 (acc !! grade result) + 1)%nat ]> acc)
        rows ∅
  | None => ∅
  end.

(** [parseFloat(record.cumulative_gpa.toString())]: printing a number
    and reading it back gives the number, but for -0, which prints as
    "0". *)
Definition parseFloat_toString (x : float) : float :=
  if PrimFloat.eqb x 0%float then 0%float else x.

(** [cgpaData && cgpaData.length > 0 ? cgpaData.reduce(...) /
    cgpaData.length : 0], with the [+] and [/] of binary64. *)
Definition computeAverageCGPA (cgpaData : option (list CgpaRow)) : float :=
  match cgpaData with
  | Some rows =>
      if (0 <? length rows)%nat then
        PrimFloat.div
          (fold_left
             (fun sum record =>
                PrimFloat.add sum (parseFloat_toString (cumulative_gpa record)))
             rows 0%float)
          (number_of_nat (length rows))
      else 0%float
  | None => 0%float
  end.

(** The object passed to [setStats]. *)
Definition fetchDashboardStats (r : Responses) : DashboardStats :=
  let gradeDistribution := computeGradeDistribution (gradeData r) in
  let averageCGPA := computeAverageCGPA (cgpaData r) in
  {| totalStudents := default 0%nat (studentsCount r);
     totalCourses := default 0%nat (coursesCount r);
     averageCGPA := toFixed2 averageCGPA;    (* parseFloat(averageCGPA.toFixed(2)) *)
     smsSent := default 0%nat (smsCount r);
     recentResults := default [] (recentResultsData r);
     gradeDistribution := gradeDistribution |}.

(** The answers of the six queries on a database that serves them all.
    A DECIMAL(3,2) column holds two-decimal values only, so a
    cumulative average is its count of hundredths over 100 and arrives
    as the number [decimal2] gives. *)
Definition query (db : Db) : Responses :=
  {| studentsCount := Some (length (students db));
     coursesCount := Some (length (courses db));
     smsCount := Some (length (List.filter Results.sms_sent (results db)));
     recentResultsData := Some (take 5 (rev (results db)));
     gradeData := Some (map (fun r => {| grade := Results.grade r |}) (results db));
     cgpaData :=
       Some (map (fun r => {| cumulative_gpa :=
                                decimal2 (Qfloor (CgpaRecords.cumulative_gpa r * 100)) |})
                 (cgpa_records db)) |}.

(** [getGradeColor] of the dashboard, a second copy of the switch. *)
Definition getGradeColor (grade : string) : string :=
  if String.eqb grade "A" then "bg-success text-success-foreground"
  else if String.eqb grade "B" then "bg-primary text-primary-foreground"
  else if String.eqb grade "C" then "bg-accent text-accent-foreground"
  else if String.eqb grade "D" then "bg-warning text-warning-foreground"
  else if String.eqb grade "E" || String.eqb grade "F"
       then "bg-destructive text-destructive-foreground"
  else "bg-muted text-muted-foreground".

End Dashboard.

(* ===================================================================== *)
(** * SMSNotifications (second component of ResultEntry.tsx) *)
(* ===================================================================== *)

Module SMSNotifications.
Import Numbers Migration Client.
Local Open Scope js_scope.

Record StudentRef := {
  first_name : string;
  last_name : string;
  student_id : string;
  phone_number : string;
}.
Record CourseRef := { course_code : string; course_name : string }.
Record SemesterRef := { name : string; year : Z }.

Record PendingResult := {
  id : string;
  score : Q;
  grade : string;
  students : StudentRef;
  courses : CourseRef;
  semesters : SemesterRef;
}.

(** The React state of the component ([smsLogs] is a constant mock list
    and is left out). *)
Record State := {
  pendingResults : list PendingResult;
  loading : bool;
  sending : bool;
}.

Definition setPendingResults (l : list PendingResult) : M (S := State) unit :=
  modify_ui (fun s => {| pendingResults := l; loading := loading s; sending := sending s |}).
Definition setLoading (b : bool) : M (S := State) unit :=
  modify_ui (fun s => {| pendingResults := pendingResults s; loading := b; sending := sending s |}).
Definition setSending (b : bool) : M (S := State) unit :=
  modify_ui (fun s => {| pendingResults := pendingResults s; loading := loading s; sending := b |}).

(** One row of [select('*, students (...), courses (...), semesters
    (...)')]: the result joined with the rows its foreign keys name. *)
Definition joined (d : Db) (r : Results.row) : option PendingResult :=
  match find (fun s => String.eqb (Students.id s) (Results.student_id r)) (Migration.students d),
        find (fun c => String.eqb (Courses.id c) (Results.course_id r)) (Migration.courses d),
        find (fun m => String.eqb (Semesters.id m) (Results.semester_id r)) (Migration.semesters d)
  with
  | Some s, Some c, Some m =>
      Some {| id := Results.id r;
              score := Results.score r;
              grade := Results.grade r;
              students := {| first_name := Students.first_name s;
                             last_name := Students.last_name s;
                             student_id := Students.student_id s;
                             phone_number := Students.phone_number s |};
              courses := {| course_code := Courses.course_code c;
                            course_name := Courses.course_name c |};
              semesters := {| name := Semesters.name m; year := Semesters.year m |} |}
  | _, _, _ => None
  end.

(** [... .eq('sms_sent', false).order('created_at', { ascending: false })]. *)
Definition select_pending (d : Db) : list PendingResult :=
  omap (joined d) (rev (List.filter (fun r => negb (Results.sms_sent r)) (results d))).

Definition fetchPendingResults (remote : Remote) : M (S := State) unit :=
  try_finally
    (try_catch
       (throw_if (select_error remote) ;;
        d <- get_db ;;
        setPendingResults (select_pending d))
       (fun _ => toast (destructive "Failed to fetch pending results")))
    (setLoading false).

(** [fetchSMSLogs] only re-installs the mock log list. *)
Definition fetchSMSLogs : M (S := State) unit := ret tt.

(** [supabase.from('results').update({ sms_sent: true }).eq('id', i)]. *)
Definition supabase_update_sms_sent (remote : Remote) (i : string)
  : M (S := State) (option Error) :=
  match write_error remote i with
  | Some e => ret (Some e)
  | None => d <- get_db ;; put_db (update_sms_sent i d) ;; ret None
  end.

(** [sendSingleSMS].  Rendering the message, the two [console.log]
    calls and the simulated one-second delay change nothing and cannot
    fail; the transport is this simulation, so the only step that can
    fail is the update.  [fetchPendingResults()] is not awaited; its
    effect on the state is taken to land at once. *)
Definition sendSingleSMS (remote : Remote) (result : PendingResult)
  : M (S := State) unit :=
  setSending true ;;
  try_finally
    (try_catch
       (error <- supabase_update_sms_sent remote (id result) ;;
        throw_if error ;;
        toast {| title := "SMS Sent";
                 description := "Result notification sent to "
                                +:+ first_name (students result) +:+ " "
                                +:+ last_name (students result);
                 variant := None |} ;;
        fetchPendingResults remote ;;
        fetchSMSLogs)
       (fun error => toast (destructive (message_or error "Failed to send SMS"))))
    (setSending false).

(** The [for (const result of pendingResults)] loop of [sendBulkSMS],
    threading [(successCount, failCount)]. *)
Fixpoint bulkLoop (remote : Remote) (pending : list PendingResult)
    (counts : nat * nat) : M (S := State) (nat * nat) :=
  match pending with
  | [] => ret counts
  | result :: rest =>
      counts' <- try_catch
                   (sendSingleSMS remote result ;;
                    ret (S (fst counts), snd counts))       (* successCount++ *)
                   (fun _ => ret (fst counts, S (snd counts))) ;;  (* failCount++ *)
      bulkLoop remote rest counts'
  end.

Definition bulkSummary (counts : nat * nat) : Toast :=
  {| title := "Bulk SMS Complete";
     description := string_of_nat (fst counts) +:+ " messages sent successfully, "
                    +:+ string_of_nat (snd counts) +:+ " failed";
     variant := None |}.

(** [sendBulkSMS]: the loop runs over the [pendingResults] array that
    the handler closed over, whatever the state becomes meanwhile. *)
Definition sendBulkSMS (remote : Remote) : M (S := State) unit :=
  setSending true ;;
  try_finally
    (try_catch
       (s <- get_ui ;;
        counts <- bulkLoop remote (pendingResults s) (0, 0)%nat ;;
        toast (bulkSummary counts))
       (fun _ => toast (destructive "Failed to send bulk SMS")))
    (setSending false).

End SMSNotifications.

(* ===================================================================== *)
(** * The application: every handler that reaches the database *)
(* ===================================================================== *)

Module App.
Import Migration Client.

(** The user actions of the five tabs.  The dashboard and the CGPA
    analyzer only read. *)
Inductive Action :=
| AddStudent (formData : Migration.students_insert)
| AddResult (formData : ResultEntry.FormData)
| SendSMSNotification (resultId : string)
| FetchPendingResults
| SendSingleSMS (result : SMSNotifications.PendingResult)
| SendBulkSMS
| ViewDashboard
| AnalyzeCGPA (studentId : string).

Definition AppWorld : Type := World SMSNotifications.State.

(** Run a handler of a component whose own React state is not modelled. *)
Definition stateless (m : M (S := unit) unit) (w : AppWorld) : AppWorld :=
  let w' := snd (m (mkWorld (db w) (toasts w) tt)) in
  mkWorld (db w') (toasts w') (ui w).

(** One user action, under the answers [remote] of the persistence
    boundary while it runs. *)
Definition step (w : AppWorld) (ev : Remote * Action) : AppWorld :=
  let '(remote, a) := ev in
  match a with
  | AddStudent formData =>
      stateless (StudentManagement.handleAddStudent remote formData) w
  | AddResult formData =>
      stateless (ResultEntry.handleAddResult remote formData) w
  | SendSMSNotification resultId =>
      stateless (ResultEntry.sendSMSNotification resultId) w
  | FetchPendingResults =>
      snd (SMSNotifications.fetchPendingResults remote w)
  | SendSingleSMS result =>
      snd (SMSNotifications.sendSingleSMS remote result w)
  | SendBulkSMS =>
      snd (SMSNotifications.sendBulkSMS remote w)
  | ViewDashboard => w
  | AnalyzeCGPA _ => w
  end.

Definition run (w : AppWorld) (evs : list (Remote * Action)) : AppWorld :=
  fold_left step evs w.

End App.

(* ===================================================================== *)
(** * Tables of expected values and sample data *)
(* ===================================================================== *)

Module Expected.
Import Migration Client.

(** Score, letter grade, grade point. *)
Definition grade_boundaries : list (Q * (string * Q)) :=
  [ (39, ("F", 0)); (40, ("E", 0)); (44, ("E", 0)); (45, ("D", 1));
    (49, ("D", 1)); (50, ("C", 2)); (59, ("C", 2)); (60, ("B", 3));
    (69, ("B", 3)); (70, ("A", 4)); (100, ("A", 4)) ]%Q%string.

(** CGPA, honours band. *)
Definition classification_boundaries : list (float * string) :=
  [ (1.9, "Pass");
    (2.0, "Third Class Honours");
    (2.6, "Third Class Honours");
    (2.7, "Second Class Honours (Lower Division)");
    (3.2, "Second Class Honours (Lower Division)");
    (3.3, "Second Class Honours (Upper Division)");
    (3.6, "Second Class Honours (Upper Division)");
    (3.7, "First Class Honours");
    (4.0, "First Class Honours") ]%float%string.

Definition decline_warning : string :=
  "Address declining performance - identify problem areas".
Definition improvement_note : string :=
  "Great improvement! Continue with current strategies".

Definition prescriptive : list string :=
  [ "Seek academic counseling immediately";
    "Consider reducing course load to focus on improving grades";
    "Utilize tutoring services and study groups";
    "Meet with academic advisor to discuss academic standing" ]%string.

(** The trend overlay for a difference [delta] of cumulative averages: at
    most one note, on a strict test against -0.2 and 0.2. *)
Definition overlay (delta : float) : list string :=
  if PrimFloat.ltb delta (-0.2)%float then [decline_warning]
  else if PrimFloat.ltb 0.2%float delta then [improvement_note]
  else [].

(** The pair (grade, grade_point) of a [GradeInfo]. *)
Definition grade_pair (g : ResultEntry.GradeInfo) : string * Q :=
  (ResultEntry.grade g, ResultEntry.grade_point g).

(** A CGPA record of a given cumulative average. *)
Definition record_of (c : float) : CGPAAnalyzer.CGPARecord :=
  {| CGPAAnalyzer.semester_gpa := c;
     CGPAAnalyzer.cumulative_gpa := c;
     CGPAAnalyzer.total_credit_units := 15;
     CGPAAnalyzer.semesters :=
       {| CGPAAnalyzer.name := "Fall 2024"; CGPAAnalyzer.year := 2024 |} |}.

(** The sum of a list of rationals, by recursion on the list. *)
Fixpoint Qsum (l : list Q) : Q :=
  match l with
  | [] => 0
  | x :: l' => x + Qsum l'
  end.

(** The unweighted arithmetic mean of a list of rationals: their sum
    divided by their number. *)
Definition mean (l : list Q) : Q := Qsum l / inject_Z (Z.of_nat (length l)).

(** The binary64 sum of a list of numbers, added one after the other to
    [acc] in list order, and the binary64 mean: that sum from 0, divided
    by the length. *)
Fixpoint sum64 (acc : float) (l : list float) : float :=
  match l with
  | [] => acc
  | x :: l' => sum64 (PrimFloat.add acc x) l'
  end.

Definition mean64 (l : list float) : float :=
  PrimFloat.div (sum64 0%float l) (Numbers.number_of_nat (length l)).

(** A database that holds nothing but CGPA records, one for each of the
    given cumulative averages (in hundredths), oldest first. *)
Definition cgpa_db (hundredths : list Z) : Db :=
  {| students := []; courses := []; semesters := []; results := [];
     cgpa_records :=
       map (fun h => {| CgpaRecords.id := "cgpa";
                        CgpaRecords.student_id := "student-1";
                        CgpaRecords.semester_id := "semester-1";
                        CgpaRecords.semester_gpa := h # 100;
                        CgpaRecords.cumulative_gpa := h # 100;
                        CgpaRecords.total_credit_units := 15 |})
           hundredths |}.

(** The counts of hundredths from 0.00 to 4.00, the values the CHECK of
    the cumulative_gpa column admits. *)
Definition valid_gpa_hundredths : list Z := map Z.of_nat (seq 0 401).

(** The trend overlay read on the two-decimal averages themselves, given
    as counts of hundredths: a note only when they differ by more than
    0.20. *)
Definition exact_overlay (previous latest : Z) : list string :=
  if (latest - previous <? -20)%Z then [decline_warning]
  else if (20 <? latest - previous)%Z then [improvement_note]
  else [].

(** The database after one [sendSingleSMS]: the row is flagged unless its
    update was refused. *)
Definition sent_db (remote : Remote) (d : Db)
    (result : SMSNotifications.PendingResult) : Db :=
  match write_error remote (SMSNotifications.id result) with
  | Some _ => d
  | None => update_sms_sent (SMSNotifications.id result) d
  end.

(** A row keeps its flag or goes from unsent to sent, nothing else. *)
Definition flag_kept (r r' : Results.row) : Prop :=
  r' = r \/ (Results.sms_sent r = false /\ r' = Results.set_sms_sent r).

(** Rows are rewritten in place, each keeping its flag or gaining it. *)
Definition updated (rs rs' : list Results.row) : Prop :=
  exists f : Results.row -> Results.row,
    rs' = map f rs /\ forall r, flag_kept r (f r).

(** One operation: rows rewritten in place, new rows appended unsent. *)
Definition one_step (rs rs' : list Results.row) : Prop :=
  exists (f : Results.row -> Results.row) (new : list Results.row),
    rs' = map f rs ++ new
    /\ (forall r, flag_kept r (f r))
    /\ Forall (fun r => Results.sms_sent r = false) new.

(** Any number of operations: as above, but an appended row may have been
    sent since. *)
Definition evolves (rs rs' : list Results.row) : Prop :=
  exists (f : Results.row -> Results.row) (new : list Results.row),
    rs' = map f rs ++ new /\ forall r, flag_kept r (f r).

(** Sample data: one student, three courses, one semester. *)
Definition sample_db : Db :=
  {| students :=
       [ {| Students.id := "student-1"; Students.student_id := "STU001";
            Students.first_name := "John"; Students.last_name := "Doe";
            Students.email := "john.doe@university.edu";
            Students.phone_number := "+1234567890";
            Students.program := "Computer Science";
            Students.year_of_study := 2 |} ];
     courses :=
       [ {| Courses.id := "course-1"; Courses.course_code := "CS101";
            Courses.course_name := "Introduction to Computer Science";
            Courses.credit_units := 3 |};
         {| Courses.id := "course-2"; Courses.course_code := "MATH201";
            Courses.course_name := "Calculus II"; Courses.credit_units := 4 |};
         {| Courses.id := "course-3"; Courses.course_code := "ENG101";
            Courses.course_name := "Technical Writing"; Courses.credit_units := 2 |} ];
     semesters :=
       [ {| Semesters.id := "semester-1"; Semesters.name := "Fall 2024";
            Semesters.year := 2024; Semesters.is_current := true |} ];
     results := [];
     cgpa_records := [] |}.

(** An unsent result of the sample student, graded by the client. *)
Definition pending_row (i c : string) (s : Q) : Results.row :=
  {| Results.id := i; Results.student_id := "student-1"; Results.course_id := c;
     Results.semester_id := "semester-1"; Results.score := s;
     Results.grade := ResultEntry.grade (ResultEntry.calculateGradeInfo s);
     Results.grade_point := ResultEntry.grade_point (ResultEntry.calculateGradeInfo s);
     Results.sms_sent := false |}.

(** Three pending results; result-1 is the newest, so the pending list
    (newest first) reads result-1, result-2, result-3. *)
Definition three_pending_db : Db :=
  with_results sample_db
    [ pending_row "result-3" "course-3" 48;
      pending_row "result-2" "course-2" 62;
      pending_row "result-1" "course-1" 85 ].



Definition network_failure : Error :=
  {| code := ""; message := "TypeError: Failed to fetch" |}.

(** A boundary that refuses the write on key [i] and serves the rest. *)
Definition fails_for (i : string) : Remote :=
  {| write_error := fun k => if String.eqb k i then Some network_failure else None;
     select_error := None;
     gen_random_uuid := "result-4" |}.

(** A boundary that refuses every write with an error that carries no
    message, and one that serves the writes but refuses the reads. *)
Definition silent_failure : Remote :=
  {| write_error := fun _ => Some {| code := "500"; message := EmptyString |};
     select_error := None;
     gen_random_uuid := "result-4" |}.

Definition stale_reads : Remote :=
  {| write_error := fun _ => None;
     select_error := Some network_failure;
     gen_random_uuid := "result-4" |}.

(** A boundary that serves everything. *)
Definition healthy : Remote :=
  {| write_error := fun _ => None;
     select_error := None;
     gen_random_uuid := "result-4" |}.

(** The notifications tab once mounted: the pending list has been fetched. *)
Definition mounted (d : Db) : World SMSNotifications.State :=
  mkWorld d []
    {| SMSNotifications.pendingResults := SMSNotifications.select_pending d;
       SMSNotifications.loading := false;
       SMSNotifications.sending := false |}.

Definition flags (w : World SMSNotifications.State) : list (string * bool) :=
  map (fun r => (Results.id r, Results.sms_sent r)) (results (db w)).

Definition pending_ids (w : World SMSNotifications.State) : list string :=
  map SMSNotifications.id (SMSNotifications.pendingResults (ui w)).

End Expected.

(* ===================================================================== *)
(** * Vocabulary of the further properties *)
(* ===================================================================== *)

Module Properties.
Import Numbers Migration Client.

(** ** Result entry *)

(** The row that [handleAddResult] has the database store for a form
    whose score parsed to [score]. *)
Definition stored_row (new_id : string) (formData : ResultEntry.FormData)
    (score : Q) : Results.row :=
  {| Results.id := new_id;
     Results.student_id := ResultEntry.student_id formData;
     Results.course_id := ResultEntry.course_id formData;
     Results.semester_id := ResultEntry.semester_id formData;
     Results.score := round2 score;
     Results.grade := ResultEntry.grade (ResultEntry.calculateGradeInfo score);
     Results.grade_point :=
       round2 (ResultEntry.grade_point (ResultEntry.calculateGradeInfo score));
     Results.sms_sent := false |}.

(** Some result already has the (student, course, semester) of the form. *)
Definition triple_taken (formData : ResultEntry.FormData) (d : Db) : bool :=
  existsb (fun r =>
             String.eqb (Results.student_id r) (ResultEntry.student_id formData)
             && String.eqb (Results.course_id r) (ResultEntry.course_id formData)
             && String.eqb (Results.semester_id r) (ResultEntry.semester_id formData))
          (results d).

(** The student, the course and the semester of the form exist. *)
Definition references_exist (formData : ResultEntry.FormData) (d : Db) : bool :=
  has_id Students.id (ResultEntry.student_id formData) (students d)
  && has_id Courses.id (ResultEntry.course_id formData) (courses d)
  && has_id Semesters.id (ResultEntry.semester_id formData) (semesters d).

Definition same_key (a b : ResultEntry.FormData) : Prop :=
  ResultEntry.student_id a = ResultEntry.student_id b
  /\ ResultEntry.course_id a = ResultEntry.course_id b
  /\ ResultEntry.semester_id a = ResultEntry.semester_id b.

Definition result_added : Toast :=
  {| title := "Success"; description := "Result added successfully";
     variant := None |}.

(** The key of the UNIQUE constraint of results. *)
Definition triple (r : Results.row) : string * string * string :=
  (Results.student_id r, Results.course_id r, Results.semester_id r).

(** The primary key and UNIQUE(student_id, course_id, semester_id) hold. *)
Definition keys_unique (rs : list Results.row) : Prop :=
  NoDup (map Results.id rs) /\ NoDup (map triple rs).

(** ** Student management *)



(** ** Dashboard *)

(** Number of rows whose grade is [g]. *)
Definition occurrences (g : string) (rows : list Dashboard.GradeRow) : nat :=
  length (List.filter (fun r => String.eqb (Dashboard.grade r) g) rows).

(** Sum of the counts of a histogram. *)
Definition histogram_total (h : gmap string nat) : nat :=
  map_fold (fun _ n total => (n + total)%nat) 0%nat h.

(** Every grade of the answer fits the VARCHAR(2) column it was read
    from. *)
Definition grades_fit_column (rows : list Dashboard.GradeRow) : Prop :=
  Forall (fun r => (Numbers.utf8_length (Dashboard.grade r) <= 2)%nat) rows.

(** The callback of the histogram's [reduce]. *)
Definition tally (acc : gmap string nat) (result : Dashboard.GradeRow)
  : gmap string nat :=
  <[ Dashboard.grade result :=
       (default 0 (acc !! Dashboard.grade result) + 1)%nat ]> acc.

(** ** Notifications *)

(** A bulk run over [pending] gets the update of row [r] accepted. *)
Definition dispatched (remote : Remote)
    (pending : list SMSNotifications.PendingResult) (r : Results.row) : bool :=
  existsb (fun p => match write_error remote (SMSNotifications.id p) with
                    | Some _ => false
                    | None => String.eqb (Results.id r) (SMSNotifications.id p)
                    end) pending.

(** What one send does to a row of the table. *)
Definition sent_row (remote : Remote) (p : SMSNotifications.PendingResult)
    (r : Results.row) : Results.row :=
  match write_error remote (SMSNotifications.id p) with
  | Some _ => r
  | None => if String.eqb (Results.id r) (SMSNotifications.id p)
            then Results.set_sms_sent r else r
  end.

(** The pending list is the one the database would answer now. *)
Definition current (w : World SMSNotifications.State) : Prop :=
  SMSNotifications.pendingResults (ui w) = SMSNotifications.select_pending (db w).

(** Every result joins with a student, a course and a semester. *)
Definition references_resolve (d : Db) : Prop :=
  Forall (fun r => is_Some (SMSNotifications.joined d r)) (results d).

(** The boundary refuses nothing. *)
Definition serves_all (remote : Remote) : Prop :=
  (forall i, write_error remote i = None) /\ select_error remote = None.

Definition sent_toast (result : SMSNotifications.PendingResult) : Toast :=
  {| title := "SMS Sent";
     description := "Result notification sent to "
                    +:+ SMSNotifications.first_name (SMSNotifications.students result)
                    +:+ " "
                    +:+ SMSNotifications.last_name (SMSNotifications.students result);
     variant := None |}.

(** ** CGPA analysis *)

(** [x] is a number: what [!isNaN(x)] tests. *)
Definition is_number (x : float) : Prop := PrimFloat.eqb x x = true.

Definition excellence : list string :=
  [ "Excellent performance! Keep up the good work";
    "Consider pursuing honors programs or research";
    "Explore leadership opportunities";
    "Prepare for graduate school applications if interested" ]%string.

(** Position of an honours band, lowest first. *)
Definition band_rank (band : string) : nat :=
  if String.eqb band "First Class Honours" then 4
  else if String.eqb band "Second Class Honours (Upper Division)" then 3
  else if String.eqb band "Second Class Honours (Lower Division)" then 2
  else if String.eqb band "Third Class Honours" then 1
  else 0.

End Properties.

(* ===================================================================== *)
(** * Grades: ResultEntry.calculateGradeInfo and calculate_grade *)
(* ===================================================================== *)

Section Grades.
Import Numbers Migration ResultEntry Expected.
Local Open Scope Q_scope.

Lemma Qgeb_true (x y : Q) : Qgeb x y = true <-> y <= x.
Proof. unfold Qgeb. apply Qle_bool_iff. Qed.

Lemma Qgeb_false (x y : Q) : Qgeb x y = false <-> x < y.
Proof.
  unfold Qgeb. split; intros H.
  - apply Qnot_le_lt. intros Hle. apply Qle_bool_iff in Hle. congruence.
  - destruct (Qle_bool y x) eqn:E; [|reflexivity].
    apply Qle_bool_iff in E. exfalso. apply (Qlt_not_le _ _ H E).
Qed.

(** Case analysis on the outcome of every threshold test in the goal. *)
Ltac thresholds score :=
  repeat match goal with
    | |- context [Qgeb score ?t] =>
        let E := fresh "E" in
        destruct (Qgeb score t) eqn:E;
        [apply Qgeb_true in E | apply Qgeb_false in E]
    end.

(** C2.  The client-side [calculateGradeInfo] and the database-side
    [calculate_grade] return the same (grade, grade_point) pair for every
    score in [0,100]; in particular a score of 70 or more, so exactly
    70.0 too, maps to A with 4.0 in both. *)
Theorem grade_client_and_database_agree :
  forall score : Q,
    0 <= score <= 100 ->
    grade_pair (calculateGradeInfo score) = calculate_grade score
    /\ (70 <= score ->
        grade_pair (calculateGradeInfo score) = ("A"%string, 4.0)).
Proof.
  intros score _. split.
  - unfold grade_pair, calculateGradeInfo, calculate_grade.
    thresholds score; reflexivity.
  - intros H. apply Qgeb_true in H.
    unfold grade_pair, calculateGradeInfo. rewrite H. reflexivity.
Qed.

Lemma grade_client_and_database_agree_at_70 :
  (0 <= 70.0 <= 100)
  /\ grade_pair (calculateGradeInfo 70.0) = calculate_grade 70.0
  /\ grade_pair (calculateGradeInfo 70.0) = ("A"%string, 4.0).
Proof.
  assert (Hr : 0 <= 70.0 <= 100) by (split; discriminate).
  split; [exact Hr|].
  destruct (grade_client_and_database_agree 70.0 Hr) as [H1 H2].
  split; [exact H1|]. apply H2. discriminate.
Defined.

(** C3.  On the scores 39, 40, 44, 45, 49, 50, 59, 60, 69, 70, 100
    [calculateGradeInfo] returns F, E, E, D, D, C, C, B, B, A, A with
    grade points 0, 0, 0, 1, 1, 2, 2, 3, 3, 4, 4; and in general the
    bands are read top-down, the first threshold reached deciding:
    >= 70 A/4, >= 60 B/3, >= 50 C/2, >= 45 D/1, >= 40 E/0, else F/0. *)
Theorem grade_boundaries_exact :
  Forall (fun '(score, (g, gp)) =>
            grade (calculateGradeInfo score) = g
            /\ grade_point (calculateGradeInfo score) == gp)
         grade_boundaries
  /\ forall score : Q,
      (70 <= score -> grade_pair (calculateGradeInfo score) = ("A"%string, 4.0))
      /\ (60 <= score < 70 -> grade_pair (calculateGradeInfo score) = ("B"%string, 3.0))
      /\ (50 <= score < 60 -> grade_pair (calculateGradeInfo score) = ("C"%string, 2.0))
      /\ (45 <= score < 50 -> grade_pair (calculateGradeInfo score) = ("D"%string, 1.0))
      /\ (40 <= score < 45 -> grade_pair (calculateGradeInfo score) = ("E"%string, 0.0))
      /\ (score < 40 -> grade_pair (calculateGradeInfo score) = ("F"%string, 0.0)).
Proof.
  split.
  - unfold grade_boundaries.
    repeat (constructor; [vm_compute; split; reflexivity|]).
    constructor.
  - intros score. unfold grade_pair, calculateGradeInfo.
    thresholds score; cbn [grade grade_point];
      repeat split; intros; try reflexivity; lra.
Qed.

Lemma grade_boundaries_exact_at_65 :
  60 <= 65 < 70
  /\ grade_pair (calculateGradeInfo 65) = ("B"%string, 3.0).
Proof.
  assert (Hr : 60 <= 65 < 70) by (split; [discriminate | reflexivity]).
  split; [exact Hr|].
  exact (proj1 (proj2 (proj2 grade_boundaries_exact 65)) Hr).
Defined.

End Grades.


(* ===================================================================== *)
(** * CGPA: classification, advice and trend *)
(* ===================================================================== *)

Section Analyzer.
Import Numbers Migration Client CGPAAnalyzer Expected.
Local Open Scope float_scope.

(** C4.  On the CGPA values 1.9, 2.0, 2.6, 2.7, 3.2, 3.3, 3.6, 3.7, 4.0
    [getClassification] returns Pass, Third, Third, Second Lower, Second
    Lower, Second Upper, Second Upper, First, First; and in general the
    first threshold reached, read downwards from 3.7 through 3.3, 2.7 and
    2.0, decides, with Pass when none is reached. *)
Theorem classification_boundaries_exact :
  Forall (fun '(cgpa, band) => getClassification cgpa = band)
         classification_boundaries
  /\ forall cgpa : float,
      ((cgpa >=? 3.7) = true ->
       getClassification cgpa = "First Class Honours"%string)
      /\ ((cgpa >=? 3.7) = false -> (cgpa >=? 3.3) = true ->
          getClassification cgpa = "Second Class Honours (Upper Division)"%string)
      /\ ((cgpa >=? 3.7) = false -> (cgpa >=? 3.3) = false ->
          (cgpa >=? 2.7) = true ->
          getClassification cgpa = "Second Class Honours (Lower Division)"%string)
      /\ ((cgpa >=? 3.7) = false -> (cgpa >=? 3.3) = false ->
          (cgpa >=? 2.7) = false -> (cgpa >=? 2.0) = true ->
          getClassification cgpa = "Third Class Honours"%string)
      /\ ((cgpa >=? 3.7) = false -> (cgpa >=? 3.3) = false ->
          (cgpa >=? 2.7) = false -> (cgpa >=? 2.0) = false ->
          getClassification cgpa = "Pass"%string).
Proof.
  split.
  - unfold classification_boundaries.
    repeat (constructor; [vm_compute; reflexivity|]).
    constructor.
  - intros cgpa. unfold getClassification.
    destruct (cgpa >=? 3.7) eqn:E1, (cgpa >=? 3.3) eqn:E2,
             (cgpa >=? 2.7) eqn:E3, (cgpa >=? 2.0) eqn:E4;
      repeat split; intros; congruence.
Qed.

Lemma classification_boundaries_exact_at_3_5 :
  ((3.5 >=? 3.7) = false) /\ ((3.5 >=? 3.3) = true)
  /\ getClassification 3.5 = "Second Class Honours (Upper Division)"%string.
Proof.
  assert (H1 : (3.5 >=? 3.7) = false) by reflexivity.
  assert (H2 : (3.5 >=? 3.3) = true) by reflexivity.
  split; [exact H1|]. split; [exact H2|].
  exact (proj1 (proj2 (proj2 classification_boundaries_exact 3.5)) H1 H2).
Defined.

(** With at most one record nothing but the base tier is returned. *)
Lemma getRecommendations_short (cgpa : float) (records : list CGPARecord) :
  (length records <= 1)%nat ->
  getRecommendations cgpa records = getRecommendations cgpa [].
Proof.
  intros Hlen. unfold getRecommendations.
  replace (1 <? length records)%nat with false
    by (symmetry; apply Nat.ltb_ge; exact Hlen).
  reflexivity.
Qed.

(** A list of two or more records has a last and a last-but-one record. *)
Lemma last_two_lookup (records : list CGPARecord) :
  (2 <= length records)%nat ->
  exists previous latest,
    records !! (length records - 2)%nat = Some previous
    /\ records !! (length records - 1)%nat = Some latest.
Proof.
  intros Hlen.
  destruct (lookup_lt_is_Some_2 records (length records - 2)%nat) as [p Hp]; [lia|].
  destruct (lookup_lt_is_Some_2 records (length records - 1)%nat) as [l Hl]; [lia|].
  eauto.
Qed.

(** With two or more records the base tier is followed by the overlay of
    the last difference; the risk level is that of the base tier. *)
Lemma getRecommendations_long cgpa records previous latest :
  records !! (length records - 2)%nat = Some previous ->
  records !! (length records - 1)%nat = Some latest ->
  (2 <= length records)%nat ->
  adv_recommendations (getRecommendations cgpa records) =
    adv_recommendations (getRecommendations cgpa [])
    ++ overlay (cumulative_gpa latest - cumulative_gpa previous)
  /\ adv_riskLevel (getRecommendations cgpa records) =
     adv_riskLevel (getRecommendations cgpa []).
Proof.
  intros Hp Hl Hlen. unfold getRecommendations, overlay, gtb.
  replace (1 <? length records)%nat with true
    by (symmetry; apply Nat.ltb_lt; lia).
  rewrite Hp, Hl.
  destruct (cgpa <? 2.0); [|destruct (cgpa <? 2.7); [|destruct (cgpa <? 3.3)]];
    cbn [adv_recommendations adv_riskLevel];
    (destruct (_ <? -0.2); [|destruct (0.2 <? _)]);
    cbn; split; reflexivity.
Qed.

(** The risk level never depends on the history. *)
Lemma riskLevel_base cgpa records :
  adv_riskLevel (getRecommendations cgpa records) =
  adv_riskLevel (getRecommendations cgpa []).
Proof.
  destruct (Nat.le_gt_cases (length records) 1) as [Hs | Hl].
  - rewrite (getRecommendations_short cgpa records Hs). reflexivity.
  - destruct (last_two_lookup records) as (p & l & Hp & Hlk); [lia|].
    apply (getRecommendations_long cgpa records p l Hp Hlk). lia.
Qed.

(** The overlay in terms of the numbers the code holds: for every record
    list with at least two elements, with [delta] the binary64 difference
    latest.cumulative_gpa - previous.cumulative_gpa, the recommendations
    are the base-tier list followed by exactly one decline warning when
    delta < -0.2, exactly one improvement note when delta > 0.2, and
    nothing otherwise.  The sequence [3.0, 3.5] appends the improvement
    note, [3.5, 3.0] the decline warning and [3.0, 3.1] neither. *)
Lemma trend_overlay_appended :
  (forall (cgpa : float) (records : list CGPARecord),
      (2 <= length records)%nat ->
      exists previous latest,
        records !! (length records - 2)%nat = Some previous
        /\ records !! (length records - 1)%nat = Some latest
        /\ let delta := cumulative_gpa latest - cumulative_gpa previous in
           adv_recommendations (getRecommendations cgpa records) =
           adv_recommendations (getRecommendations cgpa []) ++
           (if delta <? -0.2 then [decline_warning]
            else if delta >? 0.2 then [improvement_note]
            else []))
  /\ adv_recommendations (getRecommendations 3.5 [record_of 3.0; record_of 3.5]) =
     adv_recommendations (getRecommendations 3.5 []) ++ [improvement_note]
  /\ adv_recommendations (getRecommendations 3.0 [record_of 3.5; record_of 3.0]) =
     adv_recommendations (getRecommendations 3.0 []) ++ [decline_warning]
  /\ adv_recommendations (getRecommendations 3.1 [record_of 3.0; record_of 3.1]) =
     adv_recommendations (getRecommendations 3.1 []).
Proof.
  split; [|repeat split; vm_compute; reflexivity].
  intros cgpa records Hlen.
  destruct (last_two_lookup records Hlen) as (previous & latest & Hp & Hl).
  exists previous, latest. split; [exact Hp|]. split; [exact Hl|].
  apply (getRecommendations_long cgpa records previous latest Hp Hl Hlen).
Qed.

Lemma trend_overlay_appended_on_three_records :
  exists previous latest,
    [record_of 2.0; record_of 2.4; record_of 2.1] !! 1%nat = Some previous
    /\ [record_of 2.0; record_of 2.4; record_of 2.1] !! 2%nat = Some latest
    /\ adv_recommendations
         (getRecommendations 2.1 [record_of 2.0; record_of 2.4; record_of 2.1]) =
       adv_recommendations (getRecommendations 2.1 []) ++
       (if cumulative_gpa latest - cumulative_gpa previous <? -0.2
        then [decline_warning]
        else if cumulative_gpa latest - cumulative_gpa previous >? 0.2
             then [improvement_note]
             else []).
Proof.
  apply (proj1 trend_overlay_appended 2.1
           [record_of 2.0; record_of 2.4; record_of 2.1]).
  simpl. lia.
Defined.

(** C5.  The overlay misses the strict threshold on the averages the
    database holds.  The averages 3.00 and 3.20 differ by exactly 0.20,
    which is not more than 0.2, so no note is due; yet the code appends
    the improvement note for [3.00, 3.20] and the decline warning for
    [3.20, 3.00], because the binary64 difference of the two numbers is
    0.20000000000000018.  The averages 0.10 and 0.30, the same distance
    apart, get no note in either order.  Away from the threshold the
    three sequences of the specification come out as it says. *)
Theorem trend_overlay_misses_exact_threshold :
  exact_overlay 300 320 = []
  /\ exact_overlay 320 300 = []
  /\ decimal2 320 - decimal2 300 = 0.20000000000000018
  /\ adv_recommendations
       (getRecommendations (decimal2 320)
          [record_of (decimal2 300); record_of (decimal2 320)]) =
     adv_recommendations (getRecommendations (decimal2 320) []) ++ [improvement_note]
  /\ adv_recommendations
       (getRecommendations (decimal2 300)
          [record_of (decimal2 320); record_of (decimal2 300)]) =
     adv_recommendations (getRecommendations (decimal2 300) []) ++ [decline_warning]
  /\ adv_recommendations
       (getRecommendations (decimal2 30)
          [record_of (decimal2 10); record_of (decimal2 30)]) =
     adv_recommendations (getRecommendations (decimal2 30) []) ++ exact_overlay 10 30
  /\ adv_recommendations
       (getRecommendations (decimal2 10)
          [record_of (decimal2 30); record_of (decimal2 10)]) =
     adv_recommendations (getRecommendations (decimal2 10) []) ++ exact_overlay 30 10
  /\ adv_recommendations
       (getRecommendations (decimal2 350)
          [record_of (decimal2 300); record_of (decimal2 350)]) =
     adv_recommendations (getRecommendations (decimal2 350) []) ++ exact_overlay 300 350
  /\ adv_recommendations
       (getRecommendations (decimal2 300)
          [record_of (decimal2 350); record_of (decimal2 300)]) =
     adv_recommendations (getRecommendations (decimal2 300) []) ++ exact_overlay 350 300
  /\ adv_recommendations
       (getRecommendations (decimal2 310)
          [record_of (decimal2 300); record_of (decimal2 310)]) =
     adv_recommendations (getRecommendations (decimal2 310) []) ++ exact_overlay 300 310.
Proof. repeat split; vm_compute; reflexivity. Qed.

(** The trend of a history of two or more records compares its last two
    cumulative averages. *)
Lemma determineTrend_long records previous latest :
  records !! (length records - 2)%nat = Some previous ->
  records !! (length records - 1)%nat = Some latest ->
  (2 <= length records)%nat ->
  determineTrend records =
    if cumulative_gpa latest >? cumulative_gpa previous then up
    else if cumulative_gpa latest <? cumulative_gpa previous then down
    else stable.
Proof.
  intros Hp Hl Hlen. unfold determineTrend, slice_last2.
  replace (1 <? length records)%nat with true
    by (symmetry; apply Nat.ltb_lt; lia).
  rewrite !lookup_drop.
  replace (length records - 2 + 1)%nat with (length records - 1)%nat by lia.
  replace (length records - 2 + 0)%nat with (length records - 2)%nat by lia.
  rewrite Hp, Hl. reflexivity.
Qed.

Lemma determineTrend_short records :
  (length records <= 1)%nat -> determineTrend records = stable.
Proof.
  intros Hlen. unfold determineTrend.
  replace (1 <? length records)%nat with false
    by (symmetry; apply Nat.ltb_ge; exact Hlen).
  reflexivity.
Qed.

(** C6.  With zero or one CGPA record (a null answer counts as none) the
    analysis has trend [stable] and its recommendations are the base tier
    alone; with two or more records the trend is [up], [down] or [stable]
    by strict comparison of the last two cumulative averages, without any
    threshold on their difference. *)
Theorem trend_indicator :
  (forall (studentData : Student) (cgpaData : option (list CGPARecord)),
      (length (default [] cgpaData) <= 1)%nat ->
      exists a,
        analyzeCGPA (inr studentData) (inr cgpaData) = inr a
        /\ trend a = stable
        /\ recommendations a =
           adv_recommendations (getRecommendations (currentCGPA a) []))
  /\ (forall (studentData : Student) (records : list CGPARecord),
        (2 <= length records)%nat ->
        exists previous latest a,
          records !! (length records - 2)%nat = Some previous
          /\ records !! (length records - 1)%nat = Some latest
          /\ analyzeCGPA (inr studentData) (inr (Some records)) = inr a
          /\ trend a =
             if cumulative_gpa latest >? cumulative_gpa previous then up
             else if cumulative_gpa latest <? cumulative_gpa previous then down
             else stable).
Proof.
  split.
  - intros studentData cgpaData Hlen. unfold analyzeCGPA.
    eexists. split; [reflexivity|]. cbn [trend recommendations currentCGPA].
    split.
    + apply determineTrend_short, Hlen.
    + rewrite (getRecommendations_short _ _ Hlen). reflexivity.
  - intros studentData records Hlen.
    destruct (last_two_lookup records Hlen) as (previous & latest & Hp & Hl).
    exists previous, latest. unfold analyzeCGPA.
    eexists. split; [exact Hp|]. split; [exact Hl|].
    split; [reflexivity|]. cbn [trend default].
    apply (determineTrend_long records previous latest Hp Hl Hlen).
Qed.

Lemma trend_indicator_on_one_record :
  exists a,
    analyzeCGPA
      (inr {| id := "u1"; student_id := "STU001"; first_name := "John";
              last_name := "Doe"; program := "Computer Science" |})
      (inr (Some [record_of 3.4])) = inr a
    /\ trend a = stable
    /\ recommendations a =
       adv_recommendations (getRecommendations (currentCGPA a) []).
Proof.
  apply (proj1 trend_indicator _ (Some [record_of 3.4])).
  simpl. lia.
Defined.

(** C7.  For the CGPA values 1.5, 2.5, 3.0 and 3.8 the risk levels are
    high, medium, low and low, whatever the history; the recommendation
    list is never empty; and the base tier has 4 entries below 2.0, 4
    below 2.7, 3 below 3.3 and 4 otherwise. *)
Theorem advisory_risk_bands :
  (forall records : list CGPARecord,
      adv_riskLevel (getRecommendations 1.5 records) = high
      /\ adv_riskLevel (getRecommendations 2.5 records) = medium
      /\ adv_riskLevel (getRecommendations 3.0 records) = low
      /\ adv_riskLevel (getRecommendations 3.8 records) = low)
  /\ (forall (cgpa : float) (records : list CGPARecord),
        adv_recommendations (getRecommendations cgpa records) <> [])
  /\ (forall cgpa : float,
        length (adv_recommendations (getRecommendations cgpa [])) =
        if cgpa <? 2.0 then 4%nat
        else if cgpa <? 2.7 then 4%nat
        else if cgpa <? 3.3 then 3%nat
        else 4%nat).
Proof.
  split; [|split].
  - intros records. rewrite !(riskLevel_base _ records).
    repeat split; vm_compute; reflexivity.
  - intros cgpa records.
    assert (Hbase : adv_recommendations (getRecommendations cgpa []) <> []).
    { unfold getRecommendations.
      destruct (cgpa <? 2.0); [|destruct (cgpa <? 2.7); [|destruct (cgpa <? 3.3)]];
        discriminate. }
    destruct (Nat.le_gt_cases (length records) 1) as [Hs | Hl].
    + rewrite (getRecommendations_short cgpa records Hs). exact Hbase.
    + destruct (last_two_lookup records) as (p & l & Hp & Hlk); [lia|].
      destruct (getRecommendations_long cgpa records p l Hp Hlk) as [Heq _]; [lia|].
      rewrite Heq. intros Happ. apply app_eq_nil in Happ. tauto.
  - intros cgpa. unfold getRecommendations.
    destruct (cgpa <? 2.0); [|destruct (cgpa <? 2.7); [|destruct (cgpa <? 3.3)]];
      reflexivity.
Qed.

(** C10.  Analyzing a student who has no CGPA record (an empty or a null
    answer) succeeds: the current CGPA is 0, the classification is Pass,
    the risk level is high and the recommendations are the four
    prescriptive ones of the band below 2.0; the trend is stable. *)
Theorem analysis_of_empty_history :
  forall (studentData : Student) (cgpaData : option (list CGPARecord)),
    cgpaData = Some [] \/ cgpaData = None ->
    analyzeCGPA (inr studentData) (inr cgpaData) =
    inr {| student := studentData;
           records := [];
           currentCGPA := 0;
           trend := stable;
           classification := "Pass";
           recommendations := prescriptive;
           riskLevel := high |}.
Proof.
  intros studentData cgpaData [-> | ->]; vm_compute; reflexivity.
Qed.

Lemma analysis_of_empty_history_for_new_student :
  analyzeCGPA
    (inr {| id := "u2"; student_id := "STU002"; first_name := "Jane";
            last_name := "Smith"; program := "Computer Science" |})
    (inr (Some [])) =
  inr {| student := {| id := "u2"; student_id := "STU002"; first_name := "Jane";
                       last_name := "Smith"; program := "Computer Science" |};
         records := [];
         currentCGPA := 0;
         trend := stable;
         classification := "Pass";
         recommendations := prescriptive;
         riskLevel := high |}.
Proof.
  apply analysis_of_empty_history. left. reflexivity.
Defined.

End Analyzer.

(* ===================================================================== *)
(** * Dashboard rollups *)
(* ===================================================================== *)

Section Rollups.
Import Numbers Migration Dashboard Expected.

(** The running sum of the [reduce] is the binary64 sum of the column as
    [parseFloat] reads it. *)
Lemma reduce_sum64 (rows : list CgpaRow) (acc : float) :
  fold_left
    (fun sum record =>
       PrimFloat.add sum (parseFloat_toString (cumulative_gpa record)))
    rows acc
  = sum64 acc (map (fun record => parseFloat_toString (cumulative_gpa record)) rows).
Proof.
  revert acc. induction rows as [|record rows IH]; intros acc; cbn [fold_left map sum64].
  - reflexivity.
  - apply IH.
Qed.

Lemma computeAverageCGPA_mean64 (rows : list CgpaRow) :
  rows <> [] ->
  computeAverageCGPA (Some rows)
  = mean64 (map (fun record => parseFloat_toString (cumulative_gpa record)) rows).
Proof.
  intros Hne. unfold computeAverageCGPA, mean64.
  destruct rows as [|record rows]; [congruence|].
  replace (0 <? length (record :: rows))%nat with true by reflexivity.
  rewrite reduce_sum64, length_map. reflexivity.
Qed.

(** A single record within the range of the column is reported as it
    is: checked on each of the 401 values. *)
Lemma single_record_reported (h : Z) :
  (0 <= h <= 400)%Z ->
  averageCGPA (fetchDashboardStats (query (cgpa_db [h]))) = decimal2 h.
Proof.
  intros Hh.
  assert (Hall : forallb
            (fun h => PrimFloat.Leibniz.eqb
                        (averageCGPA (fetchDashboardStats (query (cgpa_db [h]))))
                        (decimal2 h))
            valid_gpa_hundredths = true) by (vm_compute; reflexivity).
  rewrite forallb_forall in Hall.
  apply Leibniz.eqb_spec, Hall.
  unfold valid_gpa_hundredths. apply in_map_iff.
  exists (Z.to_nat h). split; [lia|]. apply in_seq. lia.
Qed.

(** The average is not the exact mean: the records 1.00 and 1.01
    have the mean 1.005; the code computes a binary64 number below it
    and reports 1. *)
Lemma reported_average_is_not_the_mean :
  exists computed reported : Q,
    exact_value (computeAverageCGPA (cgpaData (query (cgpa_db [100; 101]%Z))))
    = Some computed
    /\ exact_value (averageCGPA (fetchDashboardStats (query (cgpa_db [100; 101]%Z))))
       = Some reported
    /\ (mean (map CgpaRecords.cumulative_gpa (cgpa_records (cgpa_db [100; 101]%Z)))
        == 1.005)%Q
    /\ (computed < 1.005)%Q
    /\ (reported == 1)%Q
    /\ ~ (computed
          == mean (map CgpaRecords.cumulative_gpa (cgpa_records (cgpa_db [100; 101]%Z))))%Q
    /\ ~ (reported
          == mean (map CgpaRecords.cumulative_gpa (cgpa_records (cgpa_db [100; 101]%Z))))%Q.
Proof.
  eexists. eexists.
  split; [vm_compute; reflexivity|].
  split; [vm_compute; reflexivity|].
  split; [vm_compute; reflexivity|].
  split; [vm_compute; reflexivity|].
  split; [vm_compute; reflexivity|].
  split; vm_compute; discriminate.
Qed.

(** C8.  With no result and no CGPA record (empty or null answers, and so
    in particular on a database whose two tables are empty) the reported
    average CGPA is 0 and the grade histogram is empty; the zero comes
    from the guard on the record count, the unguarded quotient 0 / 0
    being NaN.  With at least one CGPA record the computed average is the
    binary64 mean of the cumulative_gpa values (their running binary64
    sum from 0, in the order of the answer, divided in binary64 by their
    number) and the reported figure is that number rounded to two
    decimals by [toFixed(2)].  A single record within 0.00 .. 4.00 is
    reported as it is; the records 1.00 and 1.01 are reported as 1 and
    three records of 3.30 as 3.3, although the computed average is
    3.2999999999999994. *)
Theorem aggregation_empty_state_and_binary64_mean :
  (forall r : Responses,
      gradeData r = None \/ gradeData r = Some [] ->
      cgpaData r = None \/ cgpaData r = Some [] ->
      averageCGPA (fetchDashboardStats r) = 0%float
      /\ gradeDistribution (fetchDashboardStats r) = ∅)
  /\ (forall db : Db,
        results db = [] -> cgpa_records db = [] ->
        averageCGPA (fetchDashboardStats (query db)) = 0%float
        /\ gradeDistribution (fetchDashboardStats (query db)) = ∅)
  /\ (computeAverageCGPA (Some []) = 0%float
      /\ PrimFloat.is_nan
           (PrimFloat.div 0%float (number_of_nat (length (@nil CgpaRow)))) = true)
  /\ (forall rows : list CgpaRow,
        rows <> [] ->
        computeAverageCGPA (Some rows)
        = mean64 (map (fun record => parseFloat_toString (cumulative_gpa record)) rows))
  /\ (forall r : Responses,
        averageCGPA (fetchDashboardStats r) = toFixed2 (computeAverageCGPA (cgpaData r)))
  /\ (forall h : Z,
        (0 <= h <= 400)%Z ->
        averageCGPA (fetchDashboardStats (query (cgpa_db [h]))) = decimal2 h)
  /\ averageCGPA (fetchDashboardStats (query (cgpa_db [100; 101]%Z))) = 1%float
  /\ computeAverageCGPA (cgpaData (query (cgpa_db [330; 330; 330]%Z)))
     = 3.2999999999999994%float
  /\ averageCGPA (fetchDashboardStats (query (cgpa_db [330; 330; 330]%Z)))
     = decimal2 330.
Proof.
  assert (Hempty : forall r : Responses,
             gradeData r = None \/ gradeData r = Some [] ->
             cgpaData r = None \/ cgpaData r = Some [] ->
             averageCGPA (fetchDashboardStats r) = 0%float
             /\ gradeDistribution (fetchDashboardStats r) = ∅).
  { intros r Hg Hc. unfold fetchDashboardStats; cbn [averageCGPA gradeDistribution].
    split.
    - destruct Hc as [-> | ->]; reflexivity.
    - destruct Hg as [-> | ->]; reflexivity. }
  split; [exact Hempty|]. split; [|split; [|split; [|split; [|split]]]].
  - intros db Hr Hc. apply Hempty; right; unfold query; cbn; [rewrite Hr | rewrite Hc];
      reflexivity.
  - split; reflexivity.
  - exact computeAverageCGPA_mean64.
  - reflexivity.
  - exact single_record_reported.
  - repeat split; vm_compute; reflexivity.
Qed.

Lemma aggregation_on_empty_database :
  (averageCGPA (fetchDashboardStats
                  (query {| students := []; courses := []; semesters := [];
                            results := []; cgpa_records := [] |})) = 0%float
   /\ gradeDistribution (fetchDashboardStats
                           (query {| students := []; courses := []; semesters := [];
                                     results := []; cgpa_records := [] |})) = ∅)
  /\ (averageCGPA (fetchDashboardStats
                     {| studentsCount := None; coursesCount := None;
                        smsCount := None; recentResultsData := None;
                        gradeData := None; cgpaData := None |}) = 0%float
      /\ gradeDistribution (fetchDashboardStats
                              {| studentsCount := None; coursesCount := None;
                                 smsCount := None; recentResultsData := None;
                                 gradeData := None; cgpaData := None |}) = ∅)
  /\ computeAverageCGPA
       (Some [ {| cumulative_gpa := decimal2 100 |};
               {| cumulative_gpa := decimal2 101 |} ])
     = mean64 (map (fun record => parseFloat_toString (cumulative_gpa record))
                   [ {| cumulative_gpa := decimal2 100 |};
                     {| cumulative_gpa := decimal2 101 |} ])
  /\ averageCGPA (fetchDashboardStats (query (cgpa_db [350%Z]))) = decimal2 350.
Proof.
  split; [|split; [|split]].
  - apply (proj1 (proj2 aggregation_empty_state_and_binary64_mean)); reflexivity.
  - apply (proj1 aggregation_empty_state_and_binary64_mean); left; reflexivity.
  - apply (proj1 (proj2 (proj2 (proj2 aggregation_empty_state_and_binary64_mean)))).
    discriminate.
  - apply (proj1 (proj2 (proj2 (proj2 (proj2 (proj2
             aggregation_empty_state_and_binary64_mean)))))).
    lia.
Defined.

End Rollups.

(* ===================================================================== *)
(** * Notification dispatch *)
(* ===================================================================== *)

Section Dispatch.
Import Numbers Migration Client SMSNotifications Expected.

(** [sendSingleSMS] never throws: its own [catch] absorbs the refused
    update.  The row is flagged exactly when the update went through. *)
Lemma sendSingleSMS_returns remote result w :
  fst (sendSingleSMS remote result w) = Normal tt
  /\ db (snd (sendSingleSMS remote result w)) = sent_db remote (db w) result.
Proof.
  unfold sent_db, sendSingleSMS, fetchPendingResults, fetchSMSLogs,
    supabase_update_sms_sent, setSending, setLoading, setPendingResults,
    try_finally, try_catch, bind, ret, throw_if, throw, toast, get_db, put_db,
    modify_ui.
  destruct (write_error remote (id result)) as [e|]; cbn [fst snd db toasts ui].
  - split; reflexivity.
  - destruct (select_error remote) as [e|]; cbn [fst snd db toasts ui];
      split; reflexivity.
Qed.

(** One turn of the loop: since the send returned, [successCount++] runs. *)
Lemma bulkLoop_step remote result rest counts w :
  bulkLoop remote (result :: rest) counts w =
  bulkLoop remote rest (S (fst counts), snd counts)
           (snd (sendSingleSMS remote result w)).
Proof.
  destruct (sendSingleSMS_returns remote result w) as [Hc _].
  cbn [bulkLoop]. unfold bind, try_catch, ret.
  destruct (sendSingleSMS remote result w) as [c w'].
  cbn [fst snd] in *. subst c. reflexivity.
Qed.

(** The loop visits every pending item in order, whatever fails, adds
    one to [successCount] per item and never touches [failCount]. *)
Lemma bulkLoop_returns remote pending : forall counts w,
  fst (bulkLoop remote pending counts w)
    = Normal ((fst counts + length pending)%nat, snd counts)
  /\ db (snd (bulkLoop remote pending counts w))
    = fold_left (sent_db remote) pending (db w).
Proof.
  induction pending as [|result rest IH]; intros counts w.
  - cbn. rewrite Nat.add_0_r. destruct counts; split; reflexivity.
  - rewrite bulkLoop_step.
    destruct (IH (S (fst counts), snd counts)
                 (snd (sendSingleSMS remote result w))) as [IHc IHd].
    rewrite IHc, IHd. cbn [fst snd fold_left length].
    rewrite (proj2 (sendSingleSMS_returns remote result w)).
    split; [|reflexivity]. f_equal. f_equal. lia.
Qed.

(** [sendBulkSMS] ends normally and its summary always reports every
    pending item as sent and none as failed. *)
Lemma sendBulkSMS_returns remote w :
  fst (sendBulkSMS remote w) = Normal tt
  /\ db (snd (sendBulkSMS remote w))
     = fold_left (sent_db remote) (pendingResults (ui w)) (db w)
  /\ exists earlier,
       toasts (snd (sendBulkSMS remote w))
       = earlier ++ [bulkSummary (length (pendingResults (ui w)), 0%nat)].
Proof.
  unfold sendBulkSMS, setSending, try_finally, try_catch, bind, get_ui, modify_ui, toast.
  cbn [fst snd db toasts ui].
  match goal with |- context [bulkLoop remote ?p ?c ?w0] =>
    destruct (bulkLoop_returns remote p c w0) as [Hc Hd];
    destruct (bulkLoop remote p c w0) as [c' w'] end.
  cbn [fst snd] in Hc, Hd. subst c'. cbn [fst snd db toasts ui pendingResults].
  split; [reflexivity|]. split; [exact Hd|]. eexists. reflexivity.
Qed.

(** C1 (the code departs from it).  Three results are pending and the
    update of the second is refused.  The dispatch visits the three in
    order and goes on after the failure; results 1 and 3 end flagged and
    result 2 stays unflagged; afterwards only result 2 is pending, and a
    second run attempts it alone.  But the summary of the first run reads
    3 sent, 0 failed, where one send failed: the failure never reaches the
    loop, [sendSingleSMS] having caught it. *)
Theorem bulk_dispatch_with_one_failed_send :
  let first := snd (sendBulkSMS (fails_for "result-2") (mounted three_pending_db)) in
  let second := snd (sendBulkSMS healthy first) in
  pending_ids (mounted three_pending_db) = ["result-1"; "result-2"; "result-3"]%string
  /\ flags first = [("result-3", true); ("result-2", false); ("result-1", true)]%string
  /\ toasts first =
     [ {| title := "SMS Sent";
          description := "Result notification sent to John Doe";
          variant := None |};
       destructive "TypeError: Failed to fetch";
       {| title := "SMS Sent";
          description := "Result notification sent to John Doe";
          variant := None |};
       {| title := "Bulk SMS Complete";
          description := "3 messages sent successfully, 0 failed";
          variant := None |} ]%string
  /\ fst (bulkLoop (fails_for "result-2")
                   (pendingResults (ui (mounted three_pending_db))) (0, 0)%nat
                   (mounted three_pending_db))
     = Normal (3, 0)%nat
  /\ pending_ids first = ["result-2"]%string
  /\ flags second = [("result-3", true); ("result-2", true); ("result-1", true)]%string
  /\ toasts second =
     toasts first ++
     [ {| title := "SMS Sent";
          description := "Result notification sent to John Doe";
          variant := None |};
       {| title := "Bulk SMS Complete";
          description := "1 messages sent successfully, 0 failed";
          variant := None |} ]%string
  /\ pending_ids second = [].
Proof.
  vm_compute. repeat split; reflexivity.
Qed.

End Dispatch.

(* ===================================================================== *)
(** * The notified flag never reverts *)
(* ===================================================================== *)

Section Flag.
Import Numbers Migration Client SMSNotifications Expected App.

Lemma set_sms_sent_idem (r : Results.row) :
  Results.sms_sent r = true -> Results.set_sms_sent r = r.
Proof. destruct r; cbn; intros ->; reflexivity. Qed.

Lemma flag_kept_refl r : flag_kept r r.
Proof. left; reflexivity. Qed.

Lemma flag_kept_trans r r' r'' :
  flag_kept r r' -> flag_kept r' r'' -> flag_kept r r''.
Proof.
  intros [-> | [Hf ->]] [-> | [Hf' ->]]; unfold flag_kept; auto.
Qed.

Lemma flag_kept_set r : flag_kept r (Results.set_sms_sent r).
Proof.
  destruct (Results.sms_sent r) eqn:E.
  - left. apply set_sms_sent_idem, E.
  - right. auto.
Qed.

Lemma flag_kept_true r r' :
  flag_kept r r' -> Results.sms_sent r = true -> r' = r.
Proof. intros [-> | [Hf _]] Ht; [reflexivity | congruence]. Qed.

Lemma updated_refl rs : updated rs rs.
Proof.
  exists (fun r => r). rewrite map_id.
  split; [reflexivity | intros; apply flag_kept_refl].
Qed.

Lemma updated_trans rs rs' rs'' :
  updated rs rs' -> updated rs' rs'' -> updated rs rs''.
Proof.
  intros (f & -> & Hf) (g & -> & Hg).
  exists (fun r => g (f r)). rewrite map_map. split; [reflexivity|].
  intros r. eapply flag_kept_trans; [apply Hf | apply Hg].
Qed.

Lemma updated_update i (d : Db) :
  updated (results d) (results (update_sms_sent i d)).
Proof.
  exists (fun r => if String.eqb (Results.id r) i then Results.set_sms_sent r else r).
  split; [reflexivity|].
  intros r. destruct (String.eqb _ _); [apply flag_kept_set | apply flag_kept_refl].
Qed.

Lemma updated_sent remote d result :
  updated (results d) (results (sent_db remote d result)).
Proof.
  unfold sent_db. destruct (write_error remote (id result)).
  - apply updated_refl.
  - apply updated_update.
Qed.

Lemma updated_bulk remote pending : forall d,
  updated (results d) (results (fold_left (sent_db remote) pending d)).
Proof.
  induction pending as [|result rest IH]; intros d; cbn [fold_left].
  - apply updated_refl.
  - eapply updated_trans; [apply updated_sent | apply IH].
Qed.

Lemma one_step_of_updated rs rs' : updated rs rs' -> one_step rs rs'.
Proof.
  intros (f & -> & Hf). exists f, []. rewrite app_nil_r.
  split; [reflexivity|]. split; [exact Hf | constructor].
Qed.

Lemma one_step_same rs : one_step rs rs.
Proof. apply one_step_of_updated, updated_refl. Qed.

Lemma evolves_of_one_step rs rs' : one_step rs rs' -> evolves rs rs'.
Proof. intros (f & new & H1 & H2 & _). exists f, new. auto. Qed.

Lemma evolves_refl rs : evolves rs rs.
Proof. apply evolves_of_one_step, one_step_same. Qed.

Lemma evolves_trans rs rs' rs'' :
  evolves rs rs' -> evolves rs' rs'' -> evolves rs rs''.
Proof.
  intros (f & new & -> & Hf) (g & new' & -> & Hg).
  exists (fun r => g (f r)), (map g new ++ new').
  rewrite map_app, map_map, app_assoc. split; [reflexivity|].
  intros r. eapply flag_kept_trans; [apply Hf | apply Hg].
Qed.

(** A successful insert appends one row, whose flag is false. *)
Lemma insert_result_appends new_id v d d' :
  insert_result new_id v d = inr d' ->
  exists r, results d' = results d ++ [r] /\ Results.sms_sent r = false.
Proof.
  unfold insert_result. intros H.
  repeat case_match; try discriminate.
  injection H as <-. cbn. eexists. split; reflexivity.
Qed.

Lemma insert_student_results new_id v d d' :
  insert_student new_id v d = inr d' -> results d' = results d.
Proof.
  unfold insert_student. intros H.
  repeat case_match; try discriminate.
  injection H as <-. reflexivity.
Qed.

Lemma handleAddStudent_results remote formData (w : World unit) :
  results (db (snd (StudentManagement.handleAddStudent remote formData w)))
  = results (db w).
Proof.
  unfold StudentManagement.handleAddStudent, StudentManagement.supabase_insert_student,
    try_catch, bind, ret, throw_if, throw, toast, get_db, put_db.
  destruct (write_error remote (gen_random_uuid remote)); cbn; [reflexivity|].
  destruct (insert_student _ _ _) as [e|d'] eqn:E; cbn; [reflexivity|].
  apply (insert_student_results _ _ _ _ E).
Qed.

Lemma handleAddResult_results remote formData (w : World unit) :
  one_step (results (db w))
           (results (db (snd (ResultEntry.handleAddResult remote formData w)))).
Proof.
  unfold ResultEntry.handleAddResult, ResultEntry.supabase_insert_result,
    try_catch, bind, ret, throw_if, throw, toast, get_db, put_db.
  destruct (ResultEntry.score formData) as [score|]; cbn; [|apply one_step_same].
  destruct (Qltb score 0 || Qgtb score 100); cbn; [apply one_step_same|].
  destruct (write_error remote (gen_random_uuid remote)); cbn; [apply one_step_same|].
  destruct (insert_result _ _ _) as [e|d'] eqn:E; cbn; [apply one_step_same|].
  destruct (insert_result_appends _ _ _ _ E) as (r & -> & Hr).
  exists (fun r => r), [r]. rewrite map_id. split; [reflexivity|].
  split; [intros; apply flag_kept_refl|]. constructor; [exact Hr | constructor].
Qed.

Lemma fetchPendingResults_db remote w :
  db (snd (fetchPendingResults remote w)) = db w.
Proof.
  unfold fetchPendingResults, setLoading, setPendingResults, try_finally,
    try_catch, bind, ret, throw_if, throw, toast, get_db, modify_ui.
  destruct (select_error remote); reflexivity.
Qed.

(** Every action is one step on the results table. *)
Lemma step_one_step (w : AppWorld) (ev : Remote * Action) :
  one_step (results (db w)) (results (db (step w ev))).
Proof.
  destruct ev as [remote a]. destruct a; cbn [step]; unfold stateless;
    cbn [db].
  - rewrite handleAddStudent_results. apply one_step_same.
  - apply (handleAddResult_results remote formData (mkWorld (db w) (toasts w) tt)).
  - apply one_step_same.
  - rewrite fetchPendingResults_db. apply one_step_same.
  - rewrite (proj2 (sendSingleSMS_returns remote result w)).
    apply one_step_of_updated, updated_sent.
  - rewrite (proj1 (proj2 (sendBulkSMS_returns remote w))).
    apply one_step_of_updated, updated_bulk.
  - apply one_step_same.
  - apply one_step_same.
Qed.

Lemma run_evolves (evs : list (Remote * Action)) : forall w : AppWorld,
  evolves (results (db w)) (results (db (run w evs))).
Proof.
  induction evs as [|ev evs IH]; intros w; cbn [run fold_left].
  - apply evolves_refl.
  - eapply evolves_trans; [apply evolves_of_one_step, step_one_step | apply IH].
Qed.

(** C9.  The notified flag is monotonic.  Every operation rewrites the
    rows of the results table in place, each row either unchanged or
    taken from unsent to sent, and appends new rows unsent; over any
    sequence of operations, from any state, a row whose flag is true stays
    where it is, as it is: its flag is never reverted. *)
Theorem sms_sent_monotonic :
  (forall (w : AppWorld) (ev : Remote * Action),
      exists (f : Results.row -> Results.row) (new : list Results.row),
        results (db (step w ev)) = map f (results (db w)) ++ new
        /\ (forall r, f r = r
                      \/ (Results.sms_sent r = false
                          /\ f r = Results.set_sms_sent r))
        /\ Forall (fun r => Results.sms_sent r = false) new)
  /\ (forall (w : AppWorld) (evs : list (Remote * Action))
             (i : nat) (r : Results.row),
        results (db w) !! i = Some r ->
        Results.sms_sent r = true ->
        results (db (run w evs)) !! i = Some r).
Proof.
  split.
  - intros w ev. exact (step_one_step w ev).
  - intros w evs i r Hi Ht.
    destruct (run_evolves evs w) as (f & new & -> & Hf).
    rewrite lookup_app_l by (rewrite length_map; eapply lookup_lt_Some, Hi).
    rewrite list_lookup_fmap, Hi. cbn. f_equal.
    apply (flag_kept_true r (f r) (Hf r) Ht).
Qed.

Lemma sms_sent_monotonic_after_dispatch :
  results (db (snd (sendBulkSMS (fails_for "result-2") (mounted three_pending_db))))
    !! 0%nat = Some (Results.set_sms_sent (pending_row "result-3" "course-3" 48))
  /\ results
       (db (run (snd (sendBulkSMS (fails_for "result-2") (mounted three_pending_db)))
                [ (fails_for "result-3", SendBulkSMS);
                  (healthy,
                   AddResult {| ResultEntry.student_id := "student-1";
                                ResultEntry.course_id := "course-1";
                                ResultEntry.semester_id := "semester-1";
                                ResultEntry.score := Some 91 |});
                  (healthy, FetchPendingResults);
                  (healthy, SendBulkSMS) ]))
     !! 0%nat = Some (Results.set_sms_sent (pending_row "result-3" "course-3" 48)).
Proof.
  assert (H0 : results (db (snd (sendBulkSMS (fails_for "result-2")
                                             (mounted three_pending_db))))
               !! 0%nat
               = Some (Results.set_sms_sent (pending_row "result-3" "course-3" 48)))
    by reflexivity.
  split; [exact H0|].
  apply (proj2 sms_sent_monotonic _ _ _ _ H0). reflexivity.
Defined.

End Flag.

(* ===================================================================== *)
(** * Further properties: rounding to two decimals *)
(* ===================================================================== *)

Section Rounding.
Import Numbers.
Local Open Scope Q_scope.

Lemma round2_nonneg_eq (x : Q) :
  0 <= x -> round2 x = Qfloor (x * 100 + (1 # 2)) # 100.
Proof.
  intros H. unfold round2. apply Qle_bool_iff in H. rewrite H. reflexivity.
Qed.

Lemma Qmake_100 (z : Z) : z # 100 == inject_Z z / 100.
Proof. rewrite Qmake_Qdiv. reflexivity. Qed.

(** Rounding moves a non-negative value by at most half a hundredth. *)
Lemma round2_close_nonneg (x : Q) :
  0 <= x -> x - (1 # 200) < round2 x /\ round2 x <= x + (1 # 200).
Proof.
  intros H. rewrite (round2_nonneg_eq x H), Qmake_100.
  pose proof (Qfloor_le (x * 100 + (1 # 2))) as Hle.
  pose proof (Qlt_floor (x * 100 + (1 # 2))) as Hlt.
  rewrite inject_Z_plus in Hlt.
  set (f := inject_Z (Qfloor (x * 100 + (1 # 2)))) in *.
  change (inject_Z 1) with 1 in Hlt.
  split.
  - apply Qlt_shift_div_l; [reflexivity|]. lra.
  - apply Qle_shift_div_r; [reflexivity|]. lra.
Qed.

(** Rounding keeps a value between 0 and an integer bound. *)
Lemma round2_range (x : Q) (n : Z) :
  0 <= x <= inject_Z n -> 0 <= round2 x <= inject_Z n.
Proof.
  intros [H0 Hx]. rewrite (round2_nonneg_eq x H0), Qmake_100.
  pose proof (Qfloor_le (x * 100 + (1 # 2))) as Hle.
  assert (Hlo : (0 <= Qfloor (x * 100 + (1 # 2)))%Z).
  { change 0%Z with (Qfloor 0). apply Qfloor_resp_le. lra. }
  assert (Hhi : (Qfloor (x * 100 + (1 # 2)) < n * 100 + 1)%Z).
  { rewrite Zlt_Qlt, inject_Z_plus, inject_Z_mult.
    change (inject_Z 100) with 100. change (inject_Z 1) with 1. lra. }
  apply Zlt_succ_le in Hhi. rewrite Zle_Qle in Hlo, Hhi.
  rewrite inject_Z_mult in Hhi. change (inject_Z 100) with 100 in Hhi.
  change (inject_Z 0) with 0 in Hlo.
  split.
  - apply Qle_shift_div_l; [reflexivity|]. lra.
  - apply Qle_shift_div_r; [reflexivity|]. lra.
Qed.

(** A value with at most two decimals is stored as it is. *)
Lemma round2_fixed (k : Z) : (0 <= k)%Z -> round2 (k # 100) == k # 100.
Proof.
  intros Hk.
  assert (H0 : 0 <= k # 100).
  { rewrite Qmake_100. apply Qle_shift_div_l; [reflexivity|].
    rewrite Zle_Qle in Hk. change (inject_Z 0) with 0 in Hk. lra. }
  rewrite (round2_nonneg_eq _ H0).
  assert (E : (k # 100) * 100 + (1 # 2) == inject_Z k + (1 # 2)).
  { rewrite Qmake_100. field. }
  assert (F : Qfloor ((k # 100) * 100 + (1 # 2)) = k).
  { pose proof (Qfloor_le ((k # 100) * 100 + (1 # 2))) as Hle.
    pose proof (Qlt_floor ((k # 100) * 100 + (1 # 2))) as Hlt.
    rewrite inject_Z_plus in Hlt.
    change (inject_Z 1) with 1 in Hlt.
    set (f := Qfloor ((k # 100) * 100 + (1 # 2))) in *.
    assert (H1 : (f < k + 1)%Z).
    { rewrite Zlt_Qlt, inject_Z_plus. change (inject_Z 1) with 1. lra. }
    assert (H2 : (k < f + 1)%Z).
    { rewrite Zlt_Qlt, inject_Z_plus. change (inject_Z 1) with 1. lra. }
    lia. }
  rewrite F. reflexivity.
Qed.

End Rounding.

(* ===================================================================== *)
(** * Further properties: entering a result *)
(* ===================================================================== *)

Section Entering.
Import Numbers Migration Client ResultEntry Expected Properties.
Local Open Scope Q_scope.

Ltac by_thresholds score :=
  repeat match goal with
    | |- context [Qgeb score ?t] =>
        let E := fresh "E" in
        destruct (Qgeb score t) eqn:E;
        [apply Qgeb_true in E | apply Qgeb_false in E]
    end.

(** X1.  A higher score never earns a lower grade point. *)
Theorem grade_point_monotone (s1 s2 : Q) :
  s1 <= s2 ->
  grade_point (calculateGradeInfo s1) <= grade_point (calculateGradeInfo s2).
Proof.
  intros H. unfold calculateGradeInfo.
  by_thresholds s1; by_thresholds s2; cbn [grade_point]; try discriminate; lra.
Qed.

Lemma grade_point_monotone_from_59_to_60 :
  59 <= 60
  /\ grade_point (calculateGradeInfo 59) <= grade_point (calculateGradeInfo 60).
Proof.
  assert (H : 59 <= 60) by discriminate.
  split; [exact H | exact (grade_point_monotone 59 60 H)].
Defined.

Lemma valid_score_passes (score : Q) :
  0 <= score <= 100 -> Qltb score 0 || Qgtb score 100 = false.
Proof.
  intros [H0 H1]. unfold Qltb, Qgtb.
  apply Qle_bool_iff in H0, H1. rewrite H0, H1. reflexivity.
Qed.

Lemma invalid_score_stops (score : Q) :
  score < 0 \/ 100 < score -> Qltb score 0 || Qgtb score 100 = true.
Proof.
  unfold Qltb, Qgtb. intros [H | H].
  - destruct (Qle_bool 0 score) eqn:E; [|reflexivity].
    apply Qle_bool_iff in E. lra.
  - destruct (Qle_bool score 100) eqn:E; [|apply orb_true_r].
    apply Qle_bool_iff in E. lra.
Qed.

(** What the calculator returns always fits the columns of the table. *)
Lemma grade_fits_column (score : Q) :
  Nat.ltb 2 (utf8_length (grade (calculateGradeInfo score))) = false.
Proof.
  unfold calculateGradeInfo.
  repeat (destruct (Qgeb score _); [reflexivity|]). reflexivity.
Qed.

Lemma grade_point_passes_check (score : Q) :
  Qle_bool 0 (round2 (grade_point (calculateGradeInfo score)))
  && Qle_bool (round2 (grade_point (calculateGradeInfo score))) 4 = true.
Proof.
  unfold calculateGradeInfo.
  repeat (destruct (Qgeb score _); [reflexivity|]). reflexivity.
Qed.

Lemma score_passes_check (score : Q) :
  0 <= score <= 100 ->
  Qle_bool 0 (round2 score) && Qle_bool (round2 score) 100 = true.
Proof.
  intros H. destruct (round2_range score 100 H) as [H0 H1].
  change (inject_Z 100) with 100 in H1.
  apply Qle_bool_iff in H0. apply Qle_bool_iff in H1.
  rewrite H0, H1. reflexivity.
Qed.

Lemma insert_result_accepts new_id formData score d :
  0 <= score <= 100 ->
  has_id Results.id new_id (results d) = false ->
  triple_taken formData d = false ->
  references_exist formData d = true ->
  insert_result new_id
    {| ins_student_id := student_id formData;
       ins_course_id := course_id formData;
       ins_semester_id := semester_id formData;
       ins_score := score;
       ins_grade := grade (calculateGradeInfo score);
       ins_grade_point := grade_point (calculateGradeInfo score) |} d
  = inr (with_results d (results d ++ [stored_row new_id formData score])).
Proof.
  intros Hs Hid Htr Href. unfold insert_result.
  cbn [ins_student_id ins_course_id ins_semester_id ins_score ins_grade
       ins_grade_point].
  rewrite grade_fits_column, (score_passes_check score Hs),
    grade_point_passes_check, Hid.
  change (existsb (same_triple _) (results d)) with (triple_taken formData d).
  rewrite Htr.
  unfold references_exist in Href.
  apply andb_prop in Href as [Href Hm]. apply andb_prop in Href as [Hst Hc].
  rewrite Hst, Hc, Hm. reflexivity.
Qed.

Lemma insert_result_refuses_taken new_id v d :
  existsb (same_triple v) (results d) = true ->
  exists e, insert_result new_id v d = inl e.
Proof.
  intros H. unfold insert_result. rewrite H.
  repeat (match goal with |- context [if ?b then _ else _] => destruct b end;
          [eexists; reflexivity|]).
  eexists; reflexivity.
Qed.

Ltac run_add :=
  unfold handleAddResult, supabase_insert_result,
    try_catch, bind, ret, throw_if, throw, toast, get_db, put_db.

Lemma handleAddResult_run_accepted remote formData score (w : World unit) :
  ResultEntry.score formData = Some score ->
  0 <= score <= 100 ->
  write_error remote (gen_random_uuid remote) = None ->
  has_id Results.id (gen_random_uuid remote) (results (db w)) = false ->
  triple_taken formData (db w) = false ->
  references_exist formData (db w) = true ->
  handleAddResult remote formData w =
  (Normal tt,
   mkWorld (with_results (db w)
              (results (db w) ++ [stored_row (gen_random_uuid remote) formData score]))
           (toasts w ++ [result_added]) (ui w)).
Proof.
  intros Hsc Hs Hw Hid Htr Href. run_add.
  rewrite Hsc, (valid_score_passes score Hs), Hw. cbn [db toasts ui].
  rewrite (insert_result_accepts _ formData score (db w) Hs Hid Htr Href).
  reflexivity.
Qed.

Lemma handleAddResult_run_duplicate remote formData (w : World unit) :
  triple_taken formData (db w) = true ->
  db (snd (handleAddResult remote formData w)) = db w
  /\ exists msg, toasts (snd (handleAddResult remote formData w))
                 = toasts w ++ [destructive msg].
Proof.
  intros Htr. run_add.
  destruct (ResultEntry.score formData) as [score|]; cbn;
    [|split; [reflexivity|eexists; reflexivity]].
  destruct (Qltb score 0 || Qgtb score 100); cbn;
    [split; [reflexivity|eexists; reflexivity]|].
  destruct (write_error remote (gen_random_uuid remote)); cbn;
    [split; [reflexivity|eexists; reflexivity]|].
  match goal with |- context [insert_result ?i ?v ?d] =>
    destruct (insert_result_refuses_taken i v d Htr) as [e ->] end.
  cbn. split; [reflexivity|eexists; reflexivity].
Qed.

(** X2.  A form with a score in [0,100], sent while the boundary accepts
    the write, the drawn id is new, the (student, course, semester) has no
    result yet and the three references exist, is stored: exactly one row
    is appended, unsent, holding the rounded score and the grade and grade
    point of the entered score, and the Success toast is shown.  The grade
    and grade point computed by the client never trip the column checks. *)
Theorem handleAddResult_accepts remote formData score (w : World unit) :
  ResultEntry.score formData = Some score ->
  0 <= score <= 100 ->
  write_error remote (gen_random_uuid remote) = None ->
  has_id Results.id (gen_random_uuid remote) (results (db w)) = false ->
  triple_taken formData (db w) = false ->
  references_exist formData (db w) = true ->
  handleAddResult remote formData w =
  (Normal tt,
   mkWorld (with_results (db w)
              (results (db w) ++ [stored_row (gen_random_uuid remote) formData score]))
           (toasts w ++ [result_added]) (ui w)).
Proof. exact (handleAddResult_run_accepted remote formData score w). Qed.

Lemma handleAddResult_accepts_first_result :
  handleAddResult healthy
    {| student_id := "student-1"; course_id := "course-1";
       semester_id := "semester-1"; score := Some 85 |}
    (mkWorld sample_db [] tt) =
  (Normal tt,
   mkWorld (with_results sample_db
              [stored_row "result-4"
                 {| student_id := "student-1"; course_id := "course-1";
                    semester_id := "semester-1"; score := Some 85 |} 85])
           [result_added] tt).
Proof.
  apply (handleAddResult_accepts healthy
           {| student_id := "student-1"; course_id := "course-1";
              semester_id := "semester-1"; score := Some 85 |} 85
           (mkWorld sample_db [] tt));
    try reflexivity.
  split; discriminate.
Defined.

(** X3.  [handleAddResult] is all or nothing and never throws: either one
    unsent row was appended and the toast is Success, or the database is
    unchanged and one destructive toast was shown. *)
Theorem handleAddResult_all_or_nothing remote formData (w : World unit) :
  fst (handleAddResult remote formData w) = Normal tt
  /\ ((exists r,
          db (snd (handleAddResult remote formData w))
          = with_results (db w) (results (db w) ++ [r])
          /\ Results.sms_sent r = false
          /\ toasts (snd (handleAddResult remote formData w))
             = toasts w ++ [result_added])
      \/ (db (snd (handleAddResult remote formData w)) = db w
          /\ exists msg, toasts (snd (handleAddResult remote formData w))
                         = toasts w ++ [destructive msg])).
Proof.
  run_add.
  destruct (ResultEntry.score formData) as [score|]; cbn;
    [|split; [reflexivity|right; split; [reflexivity|eexists; reflexivity]]].
  destruct (Qltb score 0 || Qgtb score 100); cbn;
    [split; [reflexivity|right; split; [reflexivity|eexists; reflexivity]]|].
  destruct (write_error remote (gen_random_uuid remote)); cbn;
    [split; [reflexivity|right; split; [reflexivity|eexists; reflexivity]]|].
  destruct (insert_result _ _ _) as [e|d'] eqn:E; cbn;
    [split; [reflexivity|right; split; [reflexivity|eexists; reflexivity]]|].
  split; [reflexivity|]. left.
  unfold insert_result in E.
  repeat case_match; try discriminate.
  injection E as <-. eexists. split; [reflexivity|]. split; reflexivity.
Qed.

(** X4.  Once a form has been stored, a second submission for the same
    (student, course, semester), whatever its score and whatever the
    boundary answers, changes nothing in the database and ends in a
    destructive toast. *)
Theorem second_submission_refused remote1 remote2 first second score (w : World unit) :
  ResultEntry.score first = Some score ->
  0 <= score <= 100 ->
  write_error remote1 (gen_random_uuid remote1) = None ->
  has_id Results.id (gen_random_uuid remote1) (results (db w)) = false ->
  triple_taken first (db w) = false ->
  references_exist first (db w) = true ->
  same_key first second ->
  results (db (snd (handleAddResult remote1 first w)))
  = results (db w) ++ [stored_row (gen_random_uuid remote1) first score]
  /\ db (snd (handleAddResult remote2 second (snd (handleAddResult remote1 first w))))
     = db (snd (handleAddResult remote1 first w))
  /\ exists msg,
       toasts (snd (handleAddResult remote2 second
                      (snd (handleAddResult remote1 first w))))
       = toasts (snd (handleAddResult remote1 first w)) ++ [destructive msg].
Proof.
  intros Hsc Hs Hw Hid Htr Href (K1 & K2 & K3).
  rewrite (handleAddResult_run_accepted remote1 first score w Hsc Hs Hw Hid Htr Href).
  cbn [snd db]. split; [reflexivity|].
  apply handleAddResult_run_duplicate.
  unfold triple_taken. cbn [db with_results results].
  rewrite existsb_app. apply orb_true_iff. right. cbn.
  rewrite K1, K2, K3, !String.eqb_refl. reflexivity.
Qed.

Lemma second_submission_refused_with_other_score :
  exists msg,
    toasts (snd (handleAddResult (fails_for "nothing")
                   {| student_id := "student-1"; course_id := "course-1";
                      semester_id := "semester-1"; score := Some 40 |}
                   (snd (handleAddResult healthy
                           {| student_id := "student-1"; course_id := "course-1";
                              semester_id := "semester-1"; score := Some 85 |}
                           (mkWorld sample_db [] tt)))))
    = toasts (snd (handleAddResult healthy
                     {| student_id := "student-1"; course_id := "course-1";
                        semester_id := "semester-1"; score := Some 85 |}
                     (mkWorld sample_db [] tt))) ++ [destructive msg].
Proof.
  apply (second_submission_refused healthy (fails_for "nothing")
           {| student_id := "student-1"; course_id := "course-1";
              semester_id := "semester-1"; score := Some 85 |}
           {| student_id := "student-1"; course_id := "course-1";
              semester_id := "semester-1"; score := Some 40 |}
           85 (mkWorld sample_db [] tt));
    try reflexivity.
  - split; discriminate.
  - repeat split.
Defined.

(** X5.  A score that did not parse, or lies below 0 or above 100, is
    turned away before any database call: whatever the boundary would
    answer, the world is unchanged but for the validation toast. *)
Theorem invalid_score_never_reaches_database remote formData (w : World unit) :
  (ResultEntry.score formData = None
   \/ exists score, ResultEntry.score formData = Some score
                    /\ (score < 0 \/ 100 < score)) ->
  handleAddResult remote formData w =
  (Normal tt,
   mkWorld (db w)
           (toasts w ++ [destructive "Please enter a valid score between 0 and 100"])
           (ui w)).
Proof.
  unfold handleAddResult, try_catch, toast.
  intros [-> | (score & -> & Hs)]; [reflexivity|].
  rewrite (invalid_score_stops score Hs). reflexivity.
Qed.

Lemma invalid_score_never_reaches_database_above_100 :
  handleAddResult healthy
    {| student_id := "student-1"; course_id := "course-1";
       semester_id := "semester-1"; score := Some 100.5 |}
    (mkWorld sample_db [] tt) =
  (Normal tt,
   mkWorld sample_db
           [destructive "Please enter a valid score between 0 and 100"] tt).
Proof.
  apply (invalid_score_never_reaches_database healthy
           {| student_id := "student-1"; course_id := "course-1";
              semester_id := "semester-1"; score := Some 100.5 |}
           (mkWorld sample_db [] tt)).
  right. exists 100.5. split; [reflexivity|]. right. reflexivity.
Defined.

Lemma calculate_grade_compat (x y : Q) :
  x == y -> calculate_grade x = calculate_grade y.
Proof.
  intros H. unfold calculate_grade, Qgeb. rewrite !H. reflexivity.
Qed.

(** X6.  For a score with at most two decimals the stored row is
    consistent with the database's own grade function: the score is
    stored as entered and the stored grade and grade point are
    [calculate_grade] of the stored score.  For other scores it need not
    be: 69.996 is stored as 70.00, which [calculate_grade] grades A, with
    the grade B that the client computed from 69.996. *)
Theorem stored_grade_matches_two_decimal_score new_id formData :
  (forall k : Z, (0 <= k <= 10000)%Z ->
     Results.score (stored_row new_id formData (k # 100)) == k # 100
     /\ Results.grade (stored_row new_id formData (k # 100))
        = fst (calculate_grade (Results.score (stored_row new_id formData (k # 100))))
     /\ Results.grade_point (stored_row new_id formData (k # 100))
        == snd (calculate_grade (Results.score (stored_row new_id formData (k # 100)))))
  /\ (Results.score (stored_row new_id formData 69.996) == 70
      /\ Results.grade (stored_row new_id formData 69.996) = "B"%string
      /\ fst (calculate_grade (Results.score (stored_row new_id formData 69.996)))
         = "A"%string).
Proof.
  split.
  - intros k Hk. cbn [stored_row Results.score Results.grade Results.grade_point].
    assert (E : round2 (k # 100) == k # 100) by (apply round2_fixed; lia).
    split; [exact E|].
    rewrite (calculate_grade_compat _ _ E).
    unfold calculate_grade, calculateGradeInfo. cbn [fst snd].
    repeat (destruct (Qgeb (k # 100) _); [split; reflexivity|]). split; reflexivity.
  - vm_compute. repeat split; reflexivity.
Qed.

Lemma stored_grade_matches_at_69_99 :
  Results.score (stored_row "result-4"
                   {| student_id := "student-1"; course_id := "course-1";
                      semester_id := "semester-1"; score := Some 69.99 |}
                   (6999 # 100)) == 6999 # 100
  /\ Results.grade (stored_row "result-4"
                      {| student_id := "student-1"; course_id := "course-1";
                         semester_id := "semester-1"; score := Some 69.99 |}
                      (6999 # 100))
     = fst (calculate_grade
              (Results.score (stored_row "result-4"
                                {| student_id := "student-1"; course_id := "course-1";
                                   semester_id := "semester-1"; score := Some 69.99 |}
                                (6999 # 100))))
  /\ Results.grade_point (stored_row "result-4"
                            {| student_id := "student-1"; course_id := "course-1";
                               semester_id := "semester-1"; score := Some 69.99 |}
                            (6999 # 100))
     == snd (calculate_grade
               (Results.score (stored_row "result-4"
                                 {| student_id := "student-1"; course_id := "course-1";
                                    semester_id := "semester-1"; score := Some 69.99 |}
                                 (6999 # 100)))).
Proof.
  apply (proj1 (stored_grade_matches_two_decimal_score "result-4"
                  {| student_id := "student-1"; course_id := "course-1";
                     semester_id := "semester-1"; score := Some 69.99 |}) 6999%Z).
  lia.
Defined.

(** X7.  Every grade the calculator can return has a badge of its own,
    never the muted default; the badge starts with the colour that
    [calculateGradeInfo] returns for every grade but E, where the
    calculator says bg-warning and the badge is the destructive one shared
    with F.  The dashboard's copy of [getGradeColor] is the same
    function. *)
Theorem getGradeColor_of_computed_grades :
  (forall score : Q,
      getGradeColor (grade (calculateGradeInfo score))
      <> "bg-muted text-muted-foreground"%string
      /\ String.prefix (color (calculateGradeInfo score))
                       (getGradeColor (grade (calculateGradeInfo score)))
         = negb (String.eqb (grade (calculateGradeInfo score)) "E"))
  /\ (forall g : string, Dashboard.getGradeColor g = getGradeColor g).
Proof.
  split; [|reflexivity].
  intros score. unfold calculateGradeInfo.
  repeat (destruct (Qgeb score _); [split; [discriminate|reflexivity]|]).
  split; [discriminate|reflexivity].
Qed.

End Entering.

(* ===================================================================== *)
(** * Further properties: adding a student *)
(* ===================================================================== *)

Section Enrolment.
Import Numbers Migration Client StudentManagement Expected Properties.





End Enrolment.

(* ===================================================================== *)
(** * Further properties: the dashboard's histogram *)
(* ===================================================================== *)

Section Histogram.
Import Numbers Migration Client Dashboard Expected Properties.

Lemma tally_lookup acc rows : forall g,
  default 0%nat (fold_left tally rows acc !! g)
  = (default 0%nat (acc !! g) + occurrences g rows)%nat.
Proof.
  revert acc. induction rows as [|r rows IH]; intros acc g; cbn [fold_left].
  - unfold occurrences. cbn. lia.
  - rewrite IH. unfold tally at 1, occurrences. cbn [List.filter].
    destruct (String.eqb_spec (grade r) g) as [-> | Hne].
    + rewrite lookup_insert_eq. cbn. lia.
    + rewrite lookup_insert_ne by exact Hne. reflexivity.
Qed.

Lemma tally_positive acc rows : forall g n,
  (forall g' n', acc !! g' = Some n' -> (0 < n')%nat) ->
  fold_left tally rows acc !! g = Some n -> (0 < n)%nat.
Proof.
  revert acc. induction rows as [|r rows IH]; intros acc g n Hacc; cbn [fold_left].
  - apply Hacc.
  - apply IH. intros g' n'. unfold tally.
    destruct (decide (grade r = g')) as [-> | Hne].
    + rewrite lookup_insert_eq. intros [= <-]. lia.
    + rewrite lookup_insert_ne by exact Hne. apply Hacc.
Qed.

(** The own properties of the accumulator count the rows of each key. *)
Lemma tally_counts (rows : list GradeRow) (g : string) :
  fold_left tally rows ∅ !! g
  = if Nat.eqb (occurrences g rows) 0 then None else Some (occurrences g rows).
Proof.
  pose proof (tally_lookup ∅ rows g) as H. rewrite lookup_empty in H. cbn in H.
  destruct (fold_left tally rows ∅ !! g) as [n|] eqn:E; cbn in H.
  - assert (0 < n)%nat by (eapply (tally_positive ∅ rows g n); [|exact E];
      intros ? ?; rewrite lookup_empty; discriminate).
    subst n. destruct (Nat.eqb_spec (occurrences g rows) 0); [lia|reflexivity].
  - rewrite <- H. reflexivity.
Qed.

(** X10.  For an answer whose grades fit the VARCHAR(2) column, the
    histogram holds, for every grade, exactly the number of results with
    that grade, and no entry for a grade that does not occur. *)
Theorem gradeDistribution_counts (rows : list GradeRow) (g : string) :
  grades_fit_column rows ->
  computeGradeDistribution (Some rows) !! g
  = if Nat.eqb (occurrences g rows) 0 then None else Some (occurrences g rows).
Proof.
  intros _. unfold computeGradeDistribution.
  change (fun acc result =>
            <[ grade result := (default 0 (acc !! grade result) + 1)%nat ]> acc)
    with tally.
  apply tally_counts.
Qed.

Lemma gradeDistribution_counts_two_of_three :
  computeGradeDistribution
    (Some [ {| grade := "A" |}; {| grade := "B" |}; {| grade := "A" |} ]) !! "A"
  = if Nat.eqb (occurrences "A" [ {| grade := "A" |}; {| grade := "B" |};
                                  {| grade := "A" |} ]) 0
    then None
    else Some (occurrences "A" [ {| grade := "A" |}; {| grade := "B" |};
                                 {| grade := "A" |} ]).
Proof.
  apply (gradeDistribution_counts
           [ {| grade := "A" |}; {| grade := "B" |}; {| grade := "A" |} ] "A").
  unfold grades_fit_column. repeat (constructor; [simpl; lia|]). constructor.
Defined.

Lemma histogram_total_insert (h : gmap string nat) g n :
  histogram_total (<[g := n]> h) = (n + histogram_total (delete g h))%nat.
Proof.
  unfold histogram_total. rewrite <- insert_delete_eq.
  rewrite map_fold_insert_L; [reflexivity| |apply lookup_delete_eq].
  intros. lia.
Qed.

Lemma histogram_total_delete (h : gmap string nat) g :
  histogram_total h = (default 0%nat (h !! g) + histogram_total (delete g h))%nat.
Proof.
  destruct (h !! g) as [n|] eqn:E; cbn.
  - rewrite <- (insert_id h g n E) at 1. apply histogram_total_insert.
  - rewrite delete_id by exact E. reflexivity.
Qed.

Lemma tally_total acc rows :
  histogram_total (fold_left tally rows acc)
  = (histogram_total acc + length rows)%nat.
Proof.
  revert acc. induction rows as [|r rows IH]; intros acc; cbn [fold_left length].
  - lia.
  - rewrite IH. unfold tally at 1. rewrite histogram_total_insert.
    rewrite (histogram_total_delete acc (grade r)). lia.
Qed.

(** X11.  For an answer whose grades fit the VARCHAR(2) column, the
    counts of the histogram add up to the number of results: no result is
    dropped or counted twice. *)
Theorem gradeDistribution_total (rows : list GradeRow) :
  grades_fit_column rows ->
  histogram_total (computeGradeDistribution (Some rows)) = length rows.
Proof.
  intros _. unfold computeGradeDistribution.
  change (fun acc result =>
            <[ grade result := (default 0 (acc !! grade result) + 1)%nat ]> acc)
    with tally.
  rewrite tally_total. unfold histogram_total. rewrite map_fold_empty. reflexivity.
Qed.

Lemma gradeDistribution_total_of_three :
  histogram_total
    (computeGradeDistribution
       (Some [ {| grade := "A" |}; {| grade := "B" |}; {| grade := "A" |} ]))
  = length [ {| grade := "A" |}; {| grade := "B" |}; {| grade := "A" |} ].
Proof.
  apply (gradeDistribution_total
           [ {| grade := "A" |}; {| grade := "B" |}; {| grade := "A" |} ]).
  unfold grades_fit_column. repeat (constructor; [simpl; lia|]). constructor.
Defined.

End Histogram.

(* ===================================================================== *)
(** * Further properties: sending notifications *)
(* ===================================================================== *)

Section Sending.
Import Numbers Migration Client SMSNotifications Expected Properties.

Ltac run_send :=
  unfold sendSingleSMS, fetchPendingResults, fetchSMSLogs,
    supabase_update_sms_sent, setSending, setLoading, setPendingResults,
    try_finally, try_catch, bind, ret, throw_if, throw, toast, get_db, put_db,
    modify_ui.

Lemma sendSingleSMS_served remote result (w : World State) :
  write_error remote (id result) = None -> select_error remote = None ->
  sendSingleSMS remote result w =
  (Normal tt,
   mkWorld (update_sms_sent (id result) (db w))
           (toasts w ++ [sent_toast result])
           {| pendingResults := select_pending (update_sms_sent (id result) (db w));
              loading := false;
              sending := false |}).
Proof. intros Hw Hs. run_send. rewrite Hw, Hs. reflexivity. Qed.

(** X15.  What one send leaves behind, in each of its cases.  Whatever
    the boundary answers, the function returns without throwing and
    [sending] is false afterwards.  If the update is refused, the
    database and the pending list are left as they were and one
    destructive toast is shown: it carries the error's message, or the
    text "Failed to send SMS" when that message is empty.  If the update
    is served, the row is flagged and the "SMS Sent" toast names the
    student; then, if the following fetch is served, the pending list is
    the fresh answer of the database, and if it is refused, the pending
    list shown stays as it was and the toast of the failed fetch follows
    the "SMS Sent" toast. *)
Theorem sendSingleSMS_outcome remote result (w : World State) :
  fst (sendSingleSMS remote result w) = Normal tt
  /\ sending (ui (snd (sendSingleSMS remote result w))) = false
  /\ (forall e, write_error remote (id result) = Some e ->
      message e <> EmptyString ->
      snd (sendSingleSMS remote result w) =
      mkWorld (db w)
              (toasts w ++ [ {| title := "Error"; description := message e;
                                variant := Some "destructive"%string |} ])
              {| pendingResults := pendingResults (ui w);
                 loading := loading (ui w);
                 sending := false |})
  /\ (forall e, write_error remote (id result) = Some e ->
      message e = EmptyString ->
      snd (sendSingleSMS remote result w) =
      mkWorld (db w)
              (toasts w ++ [ {| title := "Error"; description := "Failed to send SMS";
                                variant := Some "destructive"%string |} ])
              {| pendingResults := pendingResults (ui w);
                 loading := loading (ui w);
                 sending := false |})
  /\ (write_error remote (id result) = None -> select_error remote = None ->
      snd (sendSingleSMS remote result w) =
      mkWorld (update_sms_sent (id result) (db w))
              (toasts w ++ [sent_toast result])
              {| pendingResults :=
                   select_pending (update_sms_sent (id result) (db w));
                 loading := false;
                 sending := false |})
  /\ (forall e, write_error remote (id result) = None ->
      select_error remote = Some e ->
      snd (sendSingleSMS remote result w) =
      mkWorld (update_sms_sent (id result) (db w))
              (toasts w ++ [ sent_toast result;
                             {| title := "Error";
                                description := "Failed to fetch pending results";
                                variant := Some "destructive"%string |} ])
              {| pendingResults := pendingResults (ui w);
                 loading := false;
                 sending := false |}).
Proof.
  split; [|split; [|split; [|split; [|split]]]].
  - run_send. destruct (write_error remote (id result)); cbn; [reflexivity|].
    destruct (select_error remote); reflexivity.
  - run_send. destruct (write_error remote (id result)); cbn; [reflexivity|].
    destruct (select_error remote); reflexivity.
  - intros e He Hm. run_send. rewrite He. cbn.
    unfold destructive, message_or.
    destruct (String.eqb_spec (message e) EmptyString) as [E | _]; [contradiction|].
    reflexivity.
  - intros e He Hm. run_send. rewrite He. cbn.
    unfold destructive, message_or. rewrite Hm. reflexivity.
  - intros Hw Hs. rewrite (sendSingleSMS_served remote result w Hw Hs). reflexivity.
  - intros e Hw Hs. run_send. rewrite Hw, Hs. cbn.
    rewrite <- app_assoc. reflexivity.
Qed.

Lemma sendSingleSMS_outcome_on_sample :
  snd (sendSingleSMS (fails_for "result-2")
         {| id := "result-2"; score := 62; grade := "B";
            students := {| first_name := "John"; last_name := "Doe";
                           student_id := "STU001"; phone_number := "+1234567890" |};
            courses := {| course_code := "MATH201"; course_name := "Calculus II" |};
            semesters := {| name := "Fall 2024"; year := 2024 |} |}
         (mounted three_pending_db)) =
  mkWorld three_pending_db
          ([] ++ [ {| title := "Error"; description := "TypeError: Failed to fetch";
                      variant := Some "destructive"%string |} ])
          {| pendingResults := select_pending three_pending_db;
             loading := false;
             sending := false |}
  /\ snd (sendSingleSMS silent_failure
            {| id := "result-2"; score := 62; grade := "B";
               students := {| first_name := "John"; last_name := "Doe";
                              student_id := "STU001"; phone_number := "+1234567890" |};
               courses := {| course_code := "MATH201"; course_name := "Calculus II" |};
               semesters := {| name := "Fall 2024"; year := 2024 |} |}
            (mounted three_pending_db)) =
     mkWorld three_pending_db
             ([] ++ [ {| title := "Error"; description := "Failed to send SMS";
                         variant := Some "destructive"%string |} ])
             {| pendingResults := select_pending three_pending_db;
                loading := false;
                sending := false |}
  /\ snd (sendSingleSMS healthy
            {| id := "result-2"; score := 62; grade := "B";
               students := {| first_name := "John"; last_name := "Doe";
                              student_id := "STU001"; phone_number := "+1234567890" |};
               courses := {| course_code := "MATH201"; course_name := "Calculus II" |};
               semesters := {| name := "Fall 2024"; year := 2024 |} |}
            (mounted three_pending_db)) =
     mkWorld (update_sms_sent "result-2" three_pending_db)
             ([] ++ [ {| title := "SMS Sent";
                         description := "Result notification sent to John Doe";
                         variant := None |} ])
             {| pendingResults :=
                  select_pending (update_sms_sent "result-2" three_pending_db);
                loading := false;
                sending := false |}
  /\ snd (sendSingleSMS stale_reads
            {| id := "result-2"; score := 62; grade := "B";
               students := {| first_name := "John"; last_name := "Doe";
                              student_id := "STU001"; phone_number := "+1234567890" |};
               courses := {| course_code := "MATH201"; course_name := "Calculus II" |};
               semesters := {| name := "Fall 2024"; year := 2024 |} |}
            (mounted three_pending_db)) =
     mkWorld (update_sms_sent "result-2" three_pending_db)
             ([] ++ [ {| title := "SMS Sent";
                         description := "Result notification sent to John Doe";
                         variant := None |};
                      {| title := "Error";
                         description := "Failed to fetch pending results";
                         variant := Some "destructive"%string |} ])
             {| pendingResults := select_pending three_pending_db;
                loading := false;
                sending := false |}.
Proof.
  pose (result :=
          {| id := "result-2"; score := 62; grade := "B";
             students := {| first_name := "John"; last_name := "Doe";
                            student_id := "STU001"; phone_number := "+1234567890" |};
             courses := {| course_code := "MATH201"; course_name := "Calculus II" |};
             semesters := {| name := "Fall 2024"; year := 2024 |} |}).
  split; [|split; [|split]].
  - apply (proj1 (proj2 (proj2 (sendSingleSMS_outcome (fails_for "result-2") result
                                  (mounted three_pending_db)))) network_failure);
      [reflexivity | discriminate].
  - apply (proj1 (proj2 (proj2 (proj2
             (sendSingleSMS_outcome silent_failure result
                (mounted three_pending_db))))) {| code := "500"; message := EmptyString |});
      reflexivity.
  - apply (proj1 (proj2 (proj2 (proj2 (proj2
             (sendSingleSMS_outcome healthy result (mounted three_pending_db)))))));
      reflexivity.
  - apply (proj2 (proj2 (proj2 (proj2 (proj2
             (sendSingleSMS_outcome stale_reads result (mounted three_pending_db))))))
             network_failure);
      reflexivity.
Defined.

(** X16.  What a fetch of the pending list leaves behind.  Served, the
    list is replaced by the answer of the database and nothing else
    changes; refused, the list shown stays as it was (possibly stale) and
    one destructive toast with the fixed text is shown, whatever the
    error says.  [loading] is false afterwards in both cases. *)
Theorem fetchPendingResults_outcome remote (w : World State) :
  (select_error remote = None ->
   fetchPendingResults remote w =
   (Normal tt,
    mkWorld (db w) (toasts w)
            {| pendingResults := select_pending (db w);
               loading := false;
               sending := sending (ui w) |}))
  /\ (forall e, select_error remote = Some e ->
      fetchPendingResults remote w =
      (Normal tt,
       mkWorld (db w)
               (toasts w ++ [destructive "Failed to fetch pending results"])
               {| pendingResults := pendingResults (ui w);
                  loading := false;
                  sending := sending (ui w) |})).
Proof.
  split.
  - intros Hs. run_send. rewrite Hs. reflexivity.
  - intros e Hs. run_send. rewrite Hs. reflexivity.
Qed.

Lemma fetchPendingResults_outcome_when_refused :
  fetchPendingResults
    {| write_error := fun _ => None;
       select_error := Some network_failure;
       gen_random_uuid := "result-4" |}
    (mounted three_pending_db) =
  (Normal tt,
   mkWorld three_pending_db
           [destructive "Failed to fetch pending results"]
           {| pendingResults := select_pending three_pending_db;
              loading := false;
              sending := false |}).
Proof.
  apply (proj2 (fetchPendingResults_outcome
                  {| write_error := fun _ => None;
                     select_error := Some network_failure;
                     gen_random_uuid := "result-4" |}
                  (mounted three_pending_db)) network_failure).
  reflexivity.
Defined.

Lemma joined_fields d r p :
  joined d r = Some p ->
  id p = Results.id r /\ score p = Results.score r /\ grade p = Results.grade r.
Proof.
  unfold joined. intros H. repeat case_match; try discriminate.
  injection H as <-. repeat split.
Qed.

Lemma In_filter_unsent (r : Results.row) (rs : list Results.row) :
  r ∈ List.filter (fun r => negb (Results.sms_sent r)) rs
  <-> r ∈ rs /\ Results.sms_sent r = false.
Proof.
  rewrite !list_elem_of_In, filter_In. rewrite negb_true_iff. reflexivity.
Qed.

(** X17.  The pending query lists unsent results only, each with the id,
    score and grade of its row; and when every result joins with its
    student, course and semester, it lists all of them, newest first. *)
Theorem select_pending_lists_unsent (d : Db) :
  (forall p, p ∈ select_pending d ->
     exists r, r ∈ results d /\ Results.sms_sent r = false
               /\ id p = Results.id r /\ score p = Results.score r
               /\ grade p = Results.grade r)
  /\ (references_resolve d ->
      map id (select_pending d)
      = rev (map Results.id
               (List.filter (fun r => negb (Results.sms_sent r)) (results d)))).
Proof.
  split.
  - intros p Hp. unfold select_pending in Hp.
    apply list_elem_of_omap in Hp as (r & Hr & Hj).
    rewrite list_elem_of_In, <- in_rev, <- list_elem_of_In in Hr.
    apply In_filter_unsent in Hr as [Hr Hu].
    exists r. split; [exact Hr|]. split; [exact Hu|].
    apply (joined_fields d r p Hj).
  - intros Hres. unfold select_pending. rewrite <- map_rev.
    assert (Hall : Forall (fun r => is_Some (joined d r))
                     (rev (List.filter (fun r => negb (Results.sms_sent r))
                                       (results d)))).
    { apply Forall_forall. intros r Hr.
      rewrite list_elem_of_In, <- in_rev, <- list_elem_of_In in Hr.
      apply In_filter_unsent in Hr as [Hr _].
      unfold references_resolve in Hres. rewrite Forall_forall in Hres. auto. }
    induction Hall as [|r l [p Hj] _ IH]; [reflexivity|].
    cbn [omap list_omap map]. rewrite Hj. cbn [map].
    rewrite (proj1 (joined_fields d r p Hj)). f_equal. exact IH.
Qed.

Lemma three_pending_db_resolves : references_resolve three_pending_db.
Proof. repeat constructor; eexists; reflexivity. Qed.

Lemma select_pending_lists_three :
  map id (select_pending three_pending_db)
  = rev (map Results.id
           (List.filter (fun r => negb (Results.sms_sent r))
                        (results three_pending_db))).
Proof.
  apply (proj2 (select_pending_lists_unsent three_pending_db)).
  exact three_pending_db_resolves.
Defined.

Lemma sent_db_results remote d p :
  results (sent_db remote d p) = map (sent_row remote p) (results d).
Proof.
  unfold sent_db, sent_row. destruct (write_error remote (id p)).
  - rewrite map_id. reflexivity.
  - reflexivity.
Qed.

Lemma sent_rows_fold remote pending : forall r,
  fold_left (fun r' p => sent_row remote p r') pending r
  = if dispatched remote pending r then Results.set_sms_sent r else r.
Proof.
  induction pending as [|p rest IH]; intros r; cbn [fold_left dispatched existsb].
  - reflexivity.
  - rewrite IH. unfold sent_row.
    destruct (write_error remote (id p)) as [e|] eqn:E; cbn [orb].
    + reflexivity.
    + destruct (String.eqb (Results.id r) (id p)); cbn [orb].
      * destruct (dispatched remote rest (Results.set_sms_sent r)); reflexivity.
      * reflexivity.
Qed.

Lemma bulk_results remote pending : forall d,
  results (fold_left (sent_db remote) pending d)
  = map (fun r => if dispatched remote pending r then Results.set_sms_sent r else r)
        (results d).
Proof.
  intros d.
  assert (H : forall d, results (fold_left (sent_db remote) pending d)
                = map (fun r => fold_left (fun r' p => sent_row remote p r') pending r)
                      (results d)).
  { clear d. induction pending as [|p rest IH]; intros d; cbn [fold_left].
    - rewrite map_id. reflexivity.
    - rewrite IH, sent_db_results, map_map. reflexivity. }
  rewrite H. apply map_ext. intros r. apply sent_rows_fold.
Qed.

(** X18.  What a bulk run does to the table: a row ends flagged exactly
    when it was flagged before or its id is that of a pending item whose
    update the boundary accepted; every other row, and every other column,
    is left as it was, and no row is added or removed. *)
Theorem sendBulkSMS_flags remote (w : World State) :
  results (db (snd (sendBulkSMS remote w)))
  = map (fun r => if dispatched remote (pendingResults (ui w)) r
                  then Results.set_sms_sent r else r)
        (results (db w))
  /\ Migration.students (db (snd (sendBulkSMS remote w)))
     = Migration.students (db w)
  /\ cgpa_records (db (snd (sendBulkSMS remote w))) = cgpa_records (db w).
Proof.
  rewrite (proj1 (proj2 (sendBulkSMS_returns remote w))).
  split; [apply bulk_results|].
  generalize (db w). induction (pendingResults (ui w)) as [|p rest IH]; intros d;
    cbn [fold_left]; [split; reflexivity|].
  destruct (IH (sent_db remote d p)) as [-> ->].
  unfold sent_db. destruct (write_error remote (id p)); split; reflexivity.
Qed.

Lemma sendSingleSMS_current remote result w :
  serves_all remote -> current (snd (sendSingleSMS remote result w)).
Proof.
  intros [Hw Hs]. rewrite (sendSingleSMS_served remote result w (Hw _) Hs).
  reflexivity.
Qed.

Lemma bulkLoop_current remote pending : forall counts w,
  serves_all remote -> current w ->
  current (snd (bulkLoop remote pending counts w)).
Proof.
  induction pending as [|result rest IH]; intros counts w Hr Hc.
  - exact Hc.
  - rewrite bulkLoop_step. apply IH; [exact Hr|].
    apply sendSingleSMS_current, Hr.
Qed.

Lemma sendBulkSMS_ui remote w :
  pendingResults (ui (snd (sendBulkSMS remote w)))
  = pendingResults
      (ui (snd (bulkLoop remote (pendingResults (ui w)) (0, 0)%nat
                  (mkWorld (db w) (toasts w)
                     {| pendingResults := pendingResults (ui w);
                        loading := loading (ui w); sending := true |}))))
  /\ sending (ui (snd (sendBulkSMS remote w))) = false.
Proof.
  unfold sendBulkSMS, setSending, try_finally, try_catch, bind, get_ui, modify_ui, toast.
  cbn [fst snd db toasts ui pendingResults].
  match goal with |- context [bulkLoop remote ?p ?c ?w0] =>
    destruct (bulkLoop_returns remote p c w0) as [Hc _];
    destruct (bulkLoop remote p c w0) as [c' w'] end.
  cbn [fst snd] in Hc. subst c'. cbn. split; reflexivity.
Qed.

Lemma all_flagged_none_pending (d : Db) :
  Forall (fun r => Results.sms_sent r = true) (results d) ->
  select_pending d = [].
Proof.
  intros H. unfold select_pending.
  replace (List.filter (fun r => negb (Results.sms_sent r)) (results d))
    with (@nil Results.row).
  - reflexivity.
  - symmetry. induction H as [|r l Hr _ IH]; [reflexivity|].
    cbn [List.filter]. rewrite Hr. exact IH.
Qed.

Lemma count_flagged_all (rs : list Results.row) :
  Forall (fun r => Results.sms_sent r = true) rs ->
  length (List.filter Results.sms_sent rs) = length rs.
Proof.
  induction 1 as [|r l Hr _ IH]; [reflexivity|].
  cbn [List.filter]. rewrite Hr. cbn [length]. rewrite IH. reflexivity.
Qed.

(** X19.  A bulk run drains the queue.  When the boundary refuses
    nothing, the pending list shown is the current one and every result
    joins with its references, then after [sendBulkSMS] every result is
    flagged, the database has no pending result left, the list shown is
    empty, and the dashboard's SMS counter equals the number of
    results. *)
Theorem bulk_dispatch_drains remote (w : World State) :
  serves_all remote -> current w -> references_resolve (db w) ->
  Forall (fun r => Results.sms_sent r = true)
         (results (db (snd (sendBulkSMS remote w))))
  /\ select_pending (db (snd (sendBulkSMS remote w))) = []
  /\ pendingResults (ui (snd (sendBulkSMS remote w))) = []
  /\ Dashboard.smsSent
       (Dashboard.fetchDashboardStats
          (Dashboard.query (db (snd (sendBulkSMS remote w)))))
     = length (results (db (snd (sendBulkSMS remote w)))).
Proof.
  intros Hr Hc Hres.
  assert (Hall : Forall (fun r => Results.sms_sent r = true)
                   (results (db (snd (sendBulkSMS remote w))))).
  { rewrite (proj1 (proj2 (sendBulkSMS_returns remote w))), bulk_results.
    apply Forall_map, Forall_forall. intros r Hin.
    destruct (dispatched remote (pendingResults (ui w)) r) eqn:Ed; [reflexivity|].
    destruct (Results.sms_sent r) eqn:Es; [reflexivity|]. exfalso.
    unfold references_resolve in Hres. rewrite Forall_forall in Hres.
    destruct (Hres r Hin) as [p Hj].
    assert (Hp : p ∈ pendingResults (ui w)).
    { rewrite Hc. unfold select_pending. apply list_elem_of_omap. exists r.
      split; [|exact Hj].
      rewrite list_elem_of_In, <- in_rev, <- list_elem_of_In.
      apply In_filter_unsent. auto. }
    assert (Ht : dispatched remote (pendingResults (ui w)) r = true).
    { unfold dispatched. apply existsb_exists. exists p.
      split; [apply list_elem_of_In, Hp|].
      rewrite (proj1 Hr). rewrite (proj1 (joined_fields _ _ _ Hj)).
      apply String.eqb_refl. }
    congruence. }
  split; [exact Hall|]. split; [apply all_flagged_none_pending, Hall|]. split.
  - rewrite <- (all_flagged_none_pending _ Hall).
    rewrite (proj1 (sendBulkSMS_ui remote w)).
    rewrite (proj1 (proj2 (sendBulkSMS_returns remote w))).
    match goal with |- context [bulkLoop remote ?p ?c ?w0] =>
      pose proof (bulkLoop_current remote p c w0 Hr Hc) as Hcur;
      rewrite Hcur; rewrite (proj2 (bulkLoop_returns remote p c w0)) end.
    reflexivity.
  - cbn. apply count_flagged_all, Hall.
Qed.

Lemma bulk_dispatch_drains_three_pending :
  Forall (fun r => Results.sms_sent r = true)
         (results (db (snd (sendBulkSMS healthy (mounted three_pending_db)))))
  /\ select_pending (db (snd (sendBulkSMS healthy (mounted three_pending_db)))) = []
  /\ pendingResults (ui (snd (sendBulkSMS healthy (mounted three_pending_db)))) = []
  /\ Dashboard.smsSent
       (Dashboard.fetchDashboardStats
          (Dashboard.query
             (db (snd (sendBulkSMS healthy (mounted three_pending_db))))))
     = length (results (db (snd (sendBulkSMS healthy (mounted three_pending_db))))).
Proof.
  apply (bulk_dispatch_drains healthy (mounted three_pending_db)).
  - split; reflexivity.
  - reflexivity.
  - exact three_pending_db_resolves.
Defined.

End Sending.

(* ===================================================================== *)
(** * Further properties: what no run of the application undoes *)
(* ===================================================================== *)

Section Invariants.
Import Numbers Migration Client Expected Properties App.

Lemma flag_kept_keys r r' :
  flag_kept r r' -> Results.id r' = Results.id r /\ triple r' = triple r.
Proof. intros [-> | [_ ->]]; split; reflexivity. Qed.

Lemma updated_keys rs rs' :
  updated rs rs' ->
  map Results.id rs' = map Results.id rs /\ map triple rs' = map triple rs.
Proof.
  intros (f & -> & Hf). rewrite !map_map. split; apply map_ext; intros r;
    apply (flag_kept_keys r (f r) (Hf r)).
Qed.

Lemma has_id_false (i : string) (rs : list Results.row) :
  has_id Results.id i rs = false -> i ∉ map Results.id rs.
Proof.
  unfold has_id. intros H Hin.
  apply list_elem_of_In, in_map_iff in Hin as (r & <- & Hr).
  assert (existsb (fun r0 => String.eqb (Results.id r0) (Results.id r)) rs = true).
  { apply existsb_exists. exists r. split; [exact Hr | apply String.eqb_refl]. }
  congruence.
Qed.

Lemma same_triple_false v (rs : list Results.row) :
  existsb (same_triple v) rs = false ->
  (ins_student_id v, ins_course_id v, ins_semester_id v) ∉ map triple rs.
Proof.
  intros H Hin. apply list_elem_of_In, in_map_iff in Hin as (r & Ht & Hr).
  assert (existsb (same_triple v) rs = true).
  { apply existsb_exists. exists r. split; [exact Hr|].
    unfold triple in Ht. injection Ht as H1 H2 H3. unfold same_triple.
    rewrite H1, H2, H3, !String.eqb_refl. reflexivity. }
  congruence.
Qed.

Lemma insert_result_keys new_id v d d' :
  insert_result new_id v d = inr d' ->
  keys_unique (results d) -> keys_unique (results d').
Proof.
  unfold insert_result. intros H [Hid Htr].
  repeat case_match; try discriminate.
  injection H as <-. cbn [with_results results]. unfold keys_unique.
  rewrite !map_app. cbn [map].
  split; apply NoDup_app; (split; [assumption|]);
    (split; [|apply NoDup_singleton]); intros x Hx Hx';
    apply list_elem_of_singleton in Hx'; subst x.
  - eapply has_id_false; [|exact Hx].
    destruct (has_id _ _ _) eqn:E in *; [discriminate|reflexivity].
  - unfold triple in Hx. cbn in Hx.
    eapply same_triple_false; [|exact Hx].
    destruct (existsb _ _) eqn:E in *; [discriminate|reflexivity].
Qed.

Lemma handleAddResult_keys remote formData (w : World unit) :
  keys_unique (results (db w)) ->
  keys_unique (results (db (snd (ResultEntry.handleAddResult remote formData w)))).
Proof.
  intros Hk.
  unfold ResultEntry.handleAddResult, ResultEntry.supabase_insert_result,
    try_catch, bind, ret, throw_if, throw, toast, get_db, put_db.
  destruct (ResultEntry.score formData) as [score|]; cbn; [|exact Hk].
  destruct (Qltb score 0 || Qgtb score 100); cbn; [exact Hk|].
  destruct (write_error remote (gen_random_uuid remote)); cbn; [exact Hk|].
  destruct (insert_result _ _ _) as [e|d'] eqn:E; cbn; [exact Hk|].
  apply (insert_result_keys _ _ _ _ E Hk).
Qed.

Lemma updated_keys_unique rs rs' :
  updated rs rs' -> keys_unique rs -> keys_unique rs'.
Proof.
  intros Hu [H1 H2]. destruct (updated_keys rs rs' Hu) as [E1 E2].
  unfold keys_unique. rewrite E1, E2. auto.
Qed.

Lemma step_keys (w : AppWorld) (ev : Remote * Action) :
  keys_unique (results (db w)) -> keys_unique (results (db (step w ev))).
Proof.
  intros Hk. destruct ev as [remote a]. destruct a; cbn [step]; unfold stateless;
    cbn [db].
  - rewrite handleAddStudent_results. exact Hk.
  - apply (handleAddResult_keys remote formData (mkWorld (db w) (toasts w) tt) Hk).
  - exact Hk.
  - rewrite fetchPendingResults_db. exact Hk.
  - rewrite (proj2 (sendSingleSMS_returns remote result w)).
    eapply updated_keys_unique; [apply updated_sent | exact Hk].
  - rewrite (proj1 (proj2 (sendBulkSMS_returns remote w))).
    eapply updated_keys_unique; [apply updated_bulk | exact Hk].
  - exact Hk.
  - exact Hk.
Qed.

(** X8.  No run of the application creates a second result with the id,
    or with the (student, course, semester), of another: if the results
    table has unique ids and unique triples, it still has after any
    sequence of user actions under any answers of the boundary. *)
Theorem results_keys_stay_unique (evs : list (Remote * Action)) :
  forall w : AppWorld,
    keys_unique (results (db w)) -> keys_unique (results (db (run w evs))).
Proof.
  induction evs as [|ev evs IH]; intros w Hk; cbn [run fold_left].
  - exact Hk.
  - apply IH, step_keys, Hk.
Qed.

Lemma three_pending_keys_unique : keys_unique (results three_pending_db).
Proof.
  split; apply (bool_decide_unpack _); vm_compute; exact I.
Qed.

Lemma results_keys_stay_unique_after_resubmission :
  keys_unique
    (results
       (db (run (mounted three_pending_db)
                [ (healthy,
                   AddResult {| ResultEntry.student_id := "student-1";
                                ResultEntry.course_id := "course-1";
                                ResultEntry.semester_id := "semester-1";
                                ResultEntry.score := Some 91 |});
                  (fails_for "result-2", SendBulkSMS) ]))).
Proof.
  apply results_keys_stay_unique. exact three_pending_keys_unique.
Defined.

Lemma count_flagged_app (rs new : list Results.row) :
  length (List.filter Results.sms_sent (rs ++ new))
  = (length (List.filter Results.sms_sent rs)
     + length (List.filter Results.sms_sent new))%nat.
Proof. rewrite List.filter_app, length_app. reflexivity. Qed.

Lemma count_flagged_kept (f : Results.row -> Results.row) (rs : list Results.row) :
  (forall r, flag_kept r (f r)) ->
  (length (List.filter Results.sms_sent rs)
   <= length (List.filter Results.sms_sent (map f rs)))%nat.
Proof.
  intros Hf. induction rs as [|r rs IH]; [reflexivity|].
  cbn [map List.filter].
  destruct (Results.sms_sent r) eqn:E.
  - rewrite (flag_kept_true r (f r) (Hf r) E), E. cbn [length]. lia.
  - destruct (Results.sms_sent (f r)); cbn [length]; lia.
Qed.

(** X14.  Over any sequence of user actions the dashboard's "SMS Sent"
    counter and the number of results never decrease: nothing is ever
    unsent or deleted. *)
Theorem dashboard_counters_never_decrease (w : AppWorld)
    (evs : list (Remote * Action)) :
  (Dashboard.smsSent (Dashboard.fetchDashboardStats (Dashboard.query (db w)))
   <= Dashboard.smsSent
        (Dashboard.fetchDashboardStats (Dashboard.query (db (run w evs)))))%nat
  /\ (length (results (db w)) <= length (results (db (run w evs))))%nat.
Proof.
  cbn. destruct (run_evolves evs w) as (f & new & -> & Hf).
  rewrite count_flagged_app, length_app, length_map.
  pose proof (count_flagged_kept f (results (db w)) Hf). lia.
Qed.

End Invariants.

(* ===================================================================== *)
(** * Further properties: bands of the CGPA analysis *)
(* ===================================================================== *)

Section Bands.
Import Migration Client CGPAAnalyzer Expected Properties.
Local Open Scope float_scope.

(** Comparing the other way round gives the opposite answer. *)
Lemma SFcompare_antisym (a b : spec_float) :
  SFcompare b a = option_map CompOpp (SFcompare a b).
Proof.
  destruct a as [sa|sa| |sa ma ea], b as [sb|sb| |sb mb eb];
    try destruct sa; try destruct sb; cbn; try reflexivity;
    rewrite (Z.compare_antisym ea eb);
    destruct (ea ?= eb)%Z; cbn; try reflexivity;
    rewrite (Pos.compare_cont_antisym ma mb Eq); cbn;
    destruct (Pos.compare_cont Eq ma mb); reflexivity.
Qed.

Lemma SFleb_trans (a b c : spec_float) :
  SFleb a b = true -> SFleb b c = true -> SFleb a c = true.
Proof.
  unfold SFleb, SFcompare.
  destruct a as [sa|sa| |sa ma ea], b as [sb|sb| |sb mb eb], c as [sc|sc| |sc mc ec];
    try destruct sa; try destruct sb; try destruct sc; cbn;
    try congruence;
    change (Pos.compare_cont Eq) with Pos.compare;
    destruct (Z.compare_spec ea eb), (Z.compare_spec eb ec), (Z.compare_spec ea ec);
    try congruence; try lia; subst;
    destruct (Pos.compare_spec ma mb), (Pos.compare_spec mb mc),
             (Pos.compare_spec ma mc);
    cbn; try congruence; try lia; auto.
Qed.

Lemma is_number_comparable (x c : float) :
  is_number x -> is_number c ->
  exists o, SFcompare (Prim2SF x) (Prim2SF c) = Some o.
Proof.
  unfold is_number. rewrite !eqb_spec. unfold SFeqb.
  destruct (Prim2SF x), (Prim2SF c); cbn; try discriminate; eauto.
Qed.

(** On numbers, [x < c] is the negation of [x >= c]. *)
Lemma ltb_not_geb (x c : float) :
  is_number x -> is_number c -> (x <? c) = negb (x >=? c).
Proof.
  intros Hx Hc. unfold geb. rewrite ltb_spec, leb_spec. unfold SFltb, SFleb.
  destruct (is_number_comparable x c Hx Hc) as [o Ho].
  rewrite (SFcompare_antisym (Prim2SF x) (Prim2SF c)), Ho. destruct o; reflexivity.
Qed.

(** Reaching a threshold means reaching every lower one. *)
Lemma geb_weaken (x c1 c2 : float) :
  (c1 <=? c2) = true -> (x >=? c2) = true -> (x >=? c1) = true.
Proof. unfold geb. rewrite !leb_spec. apply SFleb_trans. Qed.

Lemma band_tests (cgpa : float) :
  is_number cgpa ->
  (cgpa <? 2.0) = negb (cgpa >=? 2.0)
  /\ (cgpa <? 2.7) = negb (cgpa >=? 2.7)
  /\ (cgpa <? 3.3) = negb (cgpa >=? 3.3)
  /\ ((cgpa >=? 3.7) = true -> (cgpa >=? 3.3) = true)
  /\ ((cgpa >=? 3.3) = true -> (cgpa >=? 2.7) = true)
  /\ ((cgpa >=? 2.7) = true -> (cgpa >=? 2.0) = true).
Proof.
  intros H. repeat split;
    try (apply ltb_not_geb; [exact H | reflexivity]);
    apply geb_weaken; reflexivity.
Qed.

(** X22.  The risk level and the honours band of a CGPA agree, for every
    CGPA that is a number and every history: high risk goes with Pass
    only, medium with Third Class only, and low risk with the three upper
    bands, the excellence list being the base tier exactly for the Upper
    Second and the First. *)
Theorem risk_agrees_with_classification (cgpa : float) (records : list CGPARecord) :
  is_number cgpa ->
  match adv_riskLevel (getRecommendations cgpa records) with
  | high => getClassification cgpa = "Pass"%string
  | medium => getClassification cgpa = "Third Class Honours"%string
  | low =>
      (getClassification cgpa = "Second Class Honours (Lower Division)"%string
       /\ adv_recommendations (getRecommendations cgpa []) <> excellence)
      \/ ((getClassification cgpa = "Second Class Honours (Upper Division)"%string
           \/ getClassification cgpa = "First Class Honours"%string)
          /\ adv_recommendations (getRecommendations cgpa []) = excellence)
  end.
Proof.
  intros H. rewrite riskLevel_base.
  destruct (band_tests cgpa H) as (T20 & T27 & T33 & W37 & W33 & W27).
  unfold getRecommendations, getClassification. rewrite T20, T27, T33.
  destruct (cgpa >=? 3.7), (cgpa >=? 3.3), (cgpa >=? 2.7), (cgpa >=? 2.0);
    try discriminate (W37 eq_refl); try discriminate (W33 eq_refl);
    try discriminate (W27 eq_refl); cbn; auto.
Qed.

Lemma risk_agrees_with_classification_at_2_5 :
  getClassification 2.5 = "Third Class Honours"%string.
Proof.
  apply (risk_agrees_with_classification 2.5 [record_of 2.9; record_of 2.5]).
  reflexivity.
Defined.

(** X23.  A higher CGPA never gets a lower honours band. *)
Theorem getClassification_monotone (cgpa1 cgpa2 : float) :
  (cgpa1 <=? cgpa2) = true ->
  (band_rank (getClassification cgpa1) <= band_rank (getClassification cgpa2))%nat.
Proof.
  intros H.
  assert (Up : forall c, (cgpa1 >=? c) = true -> (cgpa2 >=? c) = true).
  { intros c Hc. unfold geb in *. rewrite leb_spec in *.
    eapply SFleb_trans; eassumption. }
  pose proof (Up 3.7) as U37. pose proof (Up 3.3) as U33.
  pose proof (Up 2.7) as U27. pose proof (Up 2.0) as U20.
  unfold getClassification.
  destruct (cgpa1 >=? 3.7); [rewrite (U37 eq_refl); reflexivity|].
  destruct (cgpa1 >=? 3.3);
    [rewrite (U33 eq_refl); destruct (cgpa2 >=? 3.7); cbn; lia|].
  destruct (cgpa1 >=? 2.7);
    [rewrite (U27 eq_refl); destruct (cgpa2 >=? 3.7), (cgpa2 >=? 3.3); cbn; lia|].
  destruct (cgpa1 >=? 2.0);
    [rewrite (U20 eq_refl);
     destruct (cgpa2 >=? 3.7), (cgpa2 >=? 3.3), (cgpa2 >=? 2.7); cbn; lia|].
  cbn. lia.
Qed.

Lemma getClassification_monotone_from_3_29_to_3_3 :
  (band_rank (getClassification 3.29) <= band_rank (getClassification 3.3))%nat.
Proof.
  apply (getClassification_monotone 3.29 3.3). reflexivity.
Defined.

Lemma last_two_of_app (prefix : list CGPARecord) (previous latest : CGPARecord) :
  (prefix ++ [previous; latest])
    !! (length (prefix ++ [previous; latest]) - 2)%nat = Some previous
  /\ (prefix ++ [previous; latest])
       !! (length (prefix ++ [previous; latest]) - 1)%nat = Some latest
  /\ (2 <= length (prefix ++ [previous; latest]))%nat.
Proof.
  rewrite length_app. cbn [length].
  replace (length prefix + 2 - 2)%nat with (length prefix + 0)%nat by lia.
  replace (length prefix + 2 - 1)%nat with (length prefix + 1)%nat by lia.
  rewrite !lookup_app_r by lia.
  replace (length prefix + 0 - length prefix)%nat with 0%nat by lia.
  replace (length prefix + 1 - length prefix)%nat with 1%nat by lia.
  repeat split; try reflexivity. lia.
Qed.

(** X21.  The analysis of a history of two or more records reads its last
    two records only: the current CGPA, the classification, the risk
    level and the base tier come from the latest record, the trend and the
    overlay from the latest and the one before; older records are shown
    but never weighed. *)
Theorem analysis_reads_last_two_records (studentData : Student)
    (prefix : list CGPARecord) (previous latest : CGPARecord) :
  analyzeCGPA (inr studentData) (inr (Some (prefix ++ [previous; latest])))
  = inr {| student := studentData;
           records := prefix ++ [previous; latest];
           currentCGPA := cumulative_gpa latest;
           trend := if cumulative_gpa latest >? cumulative_gpa previous then up
                    else if cumulative_gpa latest <? cumulative_gpa previous then down
                    else stable;
           classification := getClassification (cumulative_gpa latest);
           recommendations :=
             adv_recommendations (getRecommendations (cumulative_gpa latest) [])
             ++ overlay (cumulative_gpa latest - cumulative_gpa previous);
           riskLevel := adv_riskLevel (getRecommendations (cumulative_gpa latest) []) |}.
Proof.
  destruct (last_two_of_app prefix previous latest) as (Hp & Hl & Hlen).
  unfold analyzeCGPA. cbv zeta. cbn [default from_option Datatypes.id].
  set (rs := prefix ++ [previous; latest]) in *.
  replace (0 <? length rs)%nat with true by (symmetry; apply Nat.ltb_lt; lia).
  rewrite Hl.
  rewrite (determineTrend_long rs previous latest Hp Hl Hlen).
  destruct (getRecommendations_long (cumulative_gpa latest) rs previous latest
              Hp Hl Hlen) as [Hrec Hrisk].
  rewrite Hrec, Hrisk. reflexivity.
Qed.

End Bands.
